(** * AI-Airbnb-Bot: the search wizard, its calendar picker, the listings
      scraper and the feedback ledger, embedded and verified.

    The embedding follows the Python sources function by function:
      - [app/bot/telegram_bot.py]        (module [Bot])
      - [app/services/airbnb_scraper.py] (module [Scraper])
      - [app/models/database.py]         (module [Database])
    Python built-ins and library calls the handlers rely on ([str.split],
    [str.strip], [int], [float], [calendar.monthcalendar],
    [datetime.strptime], ...) are modelled in [Py] and [Cal], on ASCII
    text.

    A handler is a function from what it reads (the text or callback data
    of the update, [context.user_data], the clock, the database) to what it
    leaves: the state it returns, the user data, the database, and the
    list of what it sent. An exception is a result of its own ([None], or
    [Raise] for one that escapes the handler), so that the [try]/[except]
    structure of the source is kept. The chat transport and the database
    session are taken to do what they are asked: a send or a commit never
    raises. *)

From Stdlib Require Import ZArith String Ascii List Lia Bool.
From Stdlib Require Import Sorting.Permutation Sorting.Sorted.
From Stdlib Require Import Floats.SpecFloat.
From stdpp Require Import gmap strings list.
Import ListNotations.

Local Open Scope Z_scope.
Local Open Scope string_scope.
Local Set Warnings "-register-all".

(* ===================================================================== *)
(** ** Python built-ins on text and numbers                               *)
(* ===================================================================== *)

Module Py.

(** [c in s] for a one-character needle. *)
Fixpoint contains (c : ascii) (s : string) : bool :=
  match s with
  | EmptyString => false
  | String a s' => if Ascii.eqb a c then true else contains c s'
  end.

(** [s.split(sep)] for a one-character separator: never empty, the pieces
    hold no separator. *)
Fixpoint split (sep : ascii) (s : string) : list string :=
  match s with
  | EmptyString => [EmptyString]
  | String a s' =>
      if Ascii.eqb a sep then EmptyString :: split sep s'
      else match split sep s' with
           | h :: t => String a h :: t
           | [] => [String a EmptyString]
           end
  end.

(** White space as [str.strip] and [int]/[float] see it (ASCII part):
    TAB, LF, VT, FF, CR, FS, GS, RS, US and the blank. *)
Definition is_space (a : ascii) : bool :=
  let n := Z.of_nat (nat_of_ascii a) in
  (((9 <=? n) && (n <=? 13)) || ((28 <=? n) && (n <=? 32)))%Z.

Fixpoint lstrip (s : string) : string :=
  match s with
  | String a s' => if is_space a then lstrip s' else s
  | EmptyString => EmptyString
  end.

(** Drops trailing white space: a blank is kept only when something that
    is kept follows it. *)
Fixpoint rstrip (s : string) : string :=
  match s with
  | EmptyString => EmptyString
  | String a s' =>
      match rstrip s' with
      | EmptyString => if is_space a then EmptyString else String a EmptyString
      | r => String a r
      end
  end.

Definition strip (s : string) : string := rstrip (lstrip s).

Definition is_digit (a : ascii) : bool :=
  let n := Z.of_nat (nat_of_ascii a) in ((48 <=? n) && (n <=? 57))%Z.

Definition digit_val (a : ascii) : Z := Z.of_nat (nat_of_ascii a) - 48.

(** A [digitpart] of the Python grammar: decimal digits, single underscores
    allowed between two digits. [prev] tells that the character before was
    a digit; the result is the value and the number of digits read. *)
Fixpoint digitpart (s : string) (prev : bool) (acc : Z) (n : Z) : option (Z * Z) :=
  match s with
  | EmptyString => if prev then Some (acc, n) else None
  | String a s' =>
      if is_digit a then digitpart s' true (10 * acc + digit_val a) (n + 1)
      else if Ascii.eqb a "_" then
        if prev then digitpart s' false acc n else None
      else None
  end.

(** [int(s)] on text: surrounding white space, an optional sign, a digitpart.
    [None] stands for [ValueError]. *)
Definition int_of_str (s : string) : option Z :=
  match strip s with
  | String "-" r => match digitpart r false 0 0 with
                    | Some (v, _) => Some (- v)
                    | None => None
                    end
  | String "+" r => option_map fst (digitpart r false 0 0)
  | r => option_map fst (digitpart r false 0 0)
  end.

Definition digit_char (d : Z) : ascii := ascii_of_nat (Z.to_nat (48 + d)).

(** The decimal digits of [n >= 0], most significant first, in front of
    [acc]; [fuel] bounds the number of digits. *)
Fixpoint digits_of (fuel : nat) (n : Z) (acc : string) : string :=
  match fuel with
  | O => acc
  | S f =>
      let acc' := String (digit_char (n mod 10)) acc in
      if (n <? 10)%Z then acc' else digits_of f (n / 10) acc'
  end.

(** [str(z)] for an integer. *)
Definition str_of_int (z : Z) : string :=
  if (z <? 0)%Z then String "-" (digits_of (S (Z.to_nat (Z.log2 (- z)))) (- z) EmptyString)
  else digits_of (S (Z.to_nat (Z.log2 z))) z EmptyString.

(** [f"{z:02d}"]: at least two characters, zero-padded after the sign. *)
Definition fmt_02d (z : Z) : string :=
  if ((0 <=? z) && (z <? 10))%Z then String "0" (str_of_int z) else str_of_int z.

(** [f"{z:04d}"], as [strftime("%Y")] prints a year. *)
Definition fmt_04d (z : Z) : string :=
  if (z <? 0)%Z then str_of_int z
  else if (z <? 10)%Z then "000" ++ str_of_int z
  else if (z <? 100)%Z then "00" ++ str_of_int z
  else if (z <? 1000)%Z then "0" ++ str_of_int z
  else str_of_int z.

(** [sep.join(l)]. *)
Fixpoint join (sep : string) (l : list string) : string :=
  match l with
  | [] => EmptyString
  | [x] => x
  | x :: t => x ++ sep ++ join sep t
  end.

(** Every character of [s] satisfies [p]. *)
Fixpoint all_chars (p : ascii -> bool) (s : string) : bool :=
  match s with
  | EmptyString => true
  | String a s' => (p a && all_chars p s')%bool
  end.

(** A character of a printed integer: a digit or the minus sign. *)
Definition int_char (a : ascii) : bool := (is_digit a || Ascii.eqb a "-")%bool.

(** *** Floats

    A Python float is an IEEE 754 binary64 value, here a [spec_float] in
    normal form (53 bits of precision, [emax] 1024), rounded to nearest,
    ties to even. *)

Definition float := spec_float.

Definition float_round (m e : Z) : float := binary_normalize 53 1024 m e false.

Definition float_zero : float := S754_zero false.

(** [float(z)] of an int; [None] stands for [OverflowError]. *)
Definition float_of_int (z : Z) : option float :=
  match float_round z 0 with
  | S754_infinity _ => None
  | f => Some f
  end.

(** [int(f)] of a float: truncation toward zero; [None] stands for the
    [OverflowError] at an infinity and the [ValueError] at a NaN. *)
Definition int_of_float (f : float) : option Z :=
  match f with
  | S754_zero _ => Some 0
  | S754_finite s m e =>
      let a := if (0 <=? e)%Z then Z.pos m * 2 ^ e else Z.pos m / 2 ^ (- e) in
      Some (if s then - a else a)
  | S754_infinity _ | S754_nan => None
  end.

(** Truth value of a float: false at both zeros only. *)
Definition float_truthy (f : float) : bool :=
  match f with S754_zero _ => false | _ => true end.

(** The double nearest to [n / d] (for [0 <= n], [0 < d]), with the sign
    [neg]. The quotient is taken with at least 56 significant bits and a
    sticky bit, so that the one rounding of [float_round] is the correct
    rounding of the exact ratio. *)
Definition float_of_ratio (neg : bool) (n d : Z) : float :=
  if (n =? 0)%Z then S754_zero neg
  else
    let s := 56 - (Z.log2 n - Z.log2 d) in
    let num := if (0 <=? s)%Z then n * 2 ^ s else n in
    let den := if (0 <=? s)%Z then d else d * 2 ^ (- s) in
    let q := num / den in
    let sticky := if (num mod den =? 0)%Z then 0 else 1 in
    let m := 2 * q + sticky in
    float_round (if neg then - m else m) (- s - 1).

Definition lower_ascii (a : ascii) : ascii :=
  let n := nat_of_ascii a in
  if ((65 <=? Z.of_nat n) && (Z.of_nat n <=? 90))%Z then ascii_of_nat (n + 32) else a.

Fixpoint lower (s : string) : string :=
  match s with
  | EmptyString => EmptyString
  | String a s' => String (lower_ascii a) (lower s')
  end.

(** The [number] of the float grammar, [[digitpart] "." digitpart] or
    [digitpart ["."]]: the digits read as one integer and the number of
    digits after the point. *)
Definition float_mantissa (s : string) : option (Z * Z) :=
  match split "." s with
  | [i] => match digitpart i false 0 0 with
           | Some (v, _) => Some (v, 0)
           | None => None
           end
  | [i; f] =>
      match i, f with
      | EmptyString, _ => digitpart f false 0 0
      | _, EmptyString => match digitpart i false 0 0 with
                          | Some (v, _) => Some (v, 0)
                          | None => None
                          end
      | _, _ => match digitpart i false 0 0, digitpart f false 0 0 with
                | Some (vi, _), Some (vf, nf) => Some (vi * 10 ^ nf + vf, nf)
                | _, _ => None
                end
      end
  | _ => None
  end.

(** The [exponent] after the letter e: an optional sign and a digitpart. *)
Definition float_exponent (s : string) : option Z :=
  match s with
  | String "-" r => match digitpart r false 0 0 with
                    | Some (v, _) => Some (- v)
                    | None => None
                    end
  | String "+" r => option_map fst (digitpart r false 0 0)
  | r => option_map fst (digitpart r false 0 0)
  end.

Definition float_unsigned (neg : bool) (body : string) : option float :=
  if (String.eqb body "inf" || String.eqb body "infinity")%bool
  then Some (S754_infinity neg)
  else if String.eqb body "nan" then Some S754_nan
  else
    let parts := split "e" body in
    let ex := match parts with
              | [_] => Some 0
              | [_; e] => float_exponent e
              | _ => None
              end in
    match parts, ex with
    | mant :: _, Some e =>
        match float_mantissa mant with
        | Some (v, nf) =>
            let e10 := e - nf in
            Some (if (0 <=? e10)%Z then float_of_ratio neg (v * 10 ^ e10) 1
                  else float_of_ratio neg v (10 ^ (- e10)))
        | None => None
        end
    | _, _ => None
    end.

(** [float(s)] on text: surrounding white space, an optional sign, then a
    decimal number with optional fraction and exponent, or one of inf,
    infinity, nan in any letter case. [None] stands for [ValueError]. *)
Definition float_of_str (s : string) : option float :=
  match lower (strip s) with
  | String "-" r => float_unsigned true r
  | String "+" r => float_unsigned false r
  | r => float_unsigned false r
  end.

(** [s.startswith(p)]. *)
Fixpoint starts_with (p s : string) : bool :=
  match p, s with
  | EmptyString, _ => true
  | String a p', String b s' => (Ascii.eqb a b && starts_with p' s')%bool
  | String _ _, EmptyString => false
  end.

(** [needle in hay] between two texts. *)
Fixpoint substring (needle hay : string) : bool :=
  match hay with
  | EmptyString => starts_with needle EmptyString
  | String _ hay' => (starts_with needle hay || substring needle hay')%bool
  end.

End Py.

(* ===================================================================== *)
(** ** Dates: [datetime] and [calendar]                                    *)
(* ===================================================================== *)

Module Cal.

(** A naive [datetime] at midnight, which is all the handlers build. *)
Record date := mkdate { year : Z; month : Z; day : Z }.

(** [a < b] on datetimes: year, then month, then day. *)
Definition date_lt (a b : date) : bool :=
  ((year a <? year b) ||
   ((year a =? year b) && (month a <? month b)) ||
   ((year a =? year b) && (month a =? month b) && (day a <? day b)))%Z.

Definition date_le (a b : date) : bool := negb (date_lt b a).

Definition isleap (y : Z) : bool :=
  ((y mod 4 =? 0) && (negb (y mod 100 =? 0) || (y mod 400 =? 0)))%Z.

Definition mdays : list Z := [31; 28; 31; 30; 31; 30; 31; 31; 30; 31; 30; 31].

Definition days_in_month (y m : Z) : Z :=
  nth (Z.to_nat (m - 1)) mdays 0 + (if ((m =? 2)%Z && isleap y)%bool then 1 else 0).

Definition days_before_year (y : Z) : Z :=
  (y - 1) * 365 + (y - 1) / 4 - (y - 1) / 100 + (y - 1) / 400.

Definition days_before_month (y m : Z) : Z :=
  fold_right Z.add 0 (firstn (Z.to_nat (m - 1)) mdays)
  + (if ((2 <? m)%Z && isleap y)%bool then 1 else 0).

Definition ymd2ord (y m d : Z) : Z := days_before_year y + days_before_month y m + d.

(** [calendar.weekday]: Monday is 0; a year outside 1..9999 is first
    brought into the 400-year cycle. *)
Definition weekday (y m d : Z) : Z :=
  let y' := if ((1 <=? y) && (y <=? 9999))%Z then y else 2000 + y mod 400 in
  (ymd2ord y' m d + 6) mod 7.

Definition range (n : Z) : list Z := map Z.of_nat (seq 0 (Z.to_nat n)).

(** [calendar.monthcalendar(year, month)]: full weeks from Monday, a day
    outside the month is 0. [None] stands for [IllegalMonthError]. *)
Definition monthcalendar (y m : Z) : option (list (list Z)) :=
  if ((1 <=? m) && (m <=? 12))%Z then
    let day1 := weekday y m 1 in
    let ndays := days_in_month y m in
    let nweeks := (day1 + ndays + 6) / 7 in
    Some (map (fun k => map (fun j =>
                 let d := 7 * k + j - day1 + 1 in
                 if ((1 <=? d) && (d <=? ndays))%Z then d else 0) (range 7))
              (range nweeks))
  else None.

Definition month_names : list string :=
  [""; "January"; "February"; "March"; "April"; "May"; "June"; "July";
   "August"; "September"; "October"; "November"; "December"].

(** [calendar.month_name[m]]: a sequence of 13 entries, negative indices
    count from the end. [None] stands for [IndexError]. *)
Definition month_name (m : Z) : option string :=
  if ((0 <=? m) && (m <=? 12))%Z then nth_error month_names (Z.to_nat m)
  else if ((-13 <=? m) && (m <? 0))%Z then nth_error month_names (Z.to_nat (m + 13))
  else None.

(** [d + timedelta(days=1)]; [None] stands for [OverflowError] past year
    9999. *)
Definition next_day (d : date) : option date :=
  if (day d <? days_in_month (year d) (month d))%Z
  then Some (mkdate (year d) (month d) (day d + 1))
  else if (month d <? 12)%Z then Some (mkdate (year d) (month d + 1) 1)
  else if (year d <? 9999)%Z then Some (mkdate (year d + 1) 1 1)
  else None.

Definition digit_in (lo hi : Z) (a : ascii) : bool :=
  (Py.is_digit a && (lo <=? Py.digit_val a)%Z && (Py.digit_val a <=? hi)%Z)%bool.

(** The month field of [%m] and the dash after it: the alternatives
    [1[0-2]|0[1-9]|[1-9]] in this order. *)
Definition strp_month (s : string) : option (Z * string) :=
  match s with
  | String a (String b r) =>
      if ((Ascii.eqb a "1" && digit_in 0 2 b) || (Ascii.eqb a "0" && digit_in 1 9 b))%bool
      then match r with
           | String c r' =>
               if Ascii.eqb c "-" then Some (10 * Py.digit_val a + Py.digit_val b, r')
               else None
           | EmptyString => None
           end
      else if (digit_in 1 9 a && Ascii.eqb b "-")%bool then Some (Py.digit_val a, r)
      else None
  | _ => None
  end.

(** The day field of [%d] up to the end of the text: the alternatives
    [3[01]|[12]\d|0[1-9]|[1-9]| [1-9]]. *)
Definition strp_day (s : string) : option Z :=
  match s with
  | String a EmptyString => if digit_in 1 9 a then Some (Py.digit_val a) else None
  | String a (String b EmptyString) =>
      if ((Ascii.eqb a "3" && digit_in 0 1 b) || (digit_in 1 2 a && Py.is_digit b)
          || (Ascii.eqb a "0" && digit_in 1 9 b))%bool
      then Some (10 * Py.digit_val a + Py.digit_val b)
      else if (Ascii.eqb a " " && digit_in 1 9 b)%bool then Some (Py.digit_val b)
      else None
  | _ => None
  end.

(** [datetime.strptime(s, "%Y-%m-%d")]: four digits of year, month, day,
    nothing left over, and the date must exist. [None] stands for
    [ValueError]. *)
Definition strptime (s : string) : option date :=
  match s with
  | String y1 (String y2 (String y3 (String y4 (String c r)))) =>
      if (Py.is_digit y1 && Py.is_digit y2 && Py.is_digit y3 && Py.is_digit y4
          && Ascii.eqb c "-")%bool then
        let y := 1000 * Py.digit_val y1 + 100 * Py.digit_val y2
                 + 10 * Py.digit_val y3 + Py.digit_val y4 in
        match strp_month r with
        | Some (m, r') =>
            match strp_day r' with
            | Some d =>
                if ((1 <=? y) && (d <=? days_in_month y m))%Z
                then Some (mkdate y m d) else None
            | None => None
            end
        | None => None
        end
      else None
  | _ => None
  end.

(** [d.strftime("%Y-%m-%d")] (a year below 1000 is padded to four digits). *)
Definition strftime (d : date) : string :=
  Py.fmt_04d (year d) ++ "-" ++ Py.fmt_02d (month d) ++ "-" ++ Py.fmt_02d (day d).

End Cal.

(* ===================================================================== *)
(** ** The outside world                                                   *)
(* ===================================================================== *)

(** A decoded JSON value, as [response.json()] hands it over: a dict is the
    list of its entries, keys distinct. *)
Inductive json :=
| JNull
| JBool (b : bool)
| JInt (z : Z)
| JFloat (f : Py.float)
| JStr (s : string)
| JArr (l : list json)
| JObj (kv : list (string * json)).

(** What [requests.get] and [response.json()] can do: raise (time-out,
    connection error), or answer with a status and a body that decodes to
    JSON or does not ([None]: [JSONDecodeError]). *)
Inductive http_result :=
| HttpRaises
| HttpResponse (status : Z) (body : option json).

(** The collaborators and the library calls whose results the handlers
    only pass on: [str()] of a decoded value, [repr] and [format(.1f)] of a
    float, the salted [hash()] of a text, and the listings provider reached
    with the query parameters. *)
Record env := mkenv {
  py_str : json -> string;
  str_float : Py.float -> string;
  fmt_float1 : Py.float -> string;
  py_hash : string -> Z;
  http_get : list (string * string) -> http_result
}.


(** A world for the worked examples: texts and integers print as
    themselves, [None] as "None"; no float is printed in the examples and
    the hash is the length of the text. *)
Definition example_env (h : list (string * string) -> http_result) : env :=
  mkenv (fun v => match v with
                  | JStr s => s
                  | JInt z => Py.str_of_int z
                  | JNull => "None"
                  | _ => EmptyString
                  end)
        (fun _ => EmptyString) (fun _ => EmptyString)
        (fun s => Z.of_nat (String.length s)) h.

(* ===================================================================== *)
(** ** app/services/airbnb_scraper.py                                      *)
(* ===================================================================== *)

Module Scraper.

(** [d.get(k)] on a decoded dict. *)
Fixpoint get (k : string) (kv : list (string * json)) : option json :=
  match kv with
  | [] => None
  | (k', v) :: r => if String.eqb k' k then Some v else get k r
  end.

(** [d.get(k, dflt)]. *)
Definition get_or (k : string) (dflt : json) (kv : list (string * json)) : json :=
  match get k kv with Some v => v | None => dflt end.

(** Truth value of a decoded value. *)
Definition truthy (v : json) : bool :=
  match v with
  | JNull => false
  | JBool b => b
  | JInt z => negb (z =? 0)%Z
  | JFloat f => Py.float_truthy f
  | JStr s => negb (String.eqb s "")
  | JArr l => match l with [] => false | _ => true end
  | JObj kv => match kv with [] => false | _ => true end
  end.

(** [a or b]. *)
Definition or_else (a b : json) : json := if truthy a then a else b.

(** [float(v)]; [None] stands for the exception raised. *)
Definition to_float (v : json) : option Py.float :=
  match v with
  | JInt z => Py.float_of_int z
  | JFloat f => Some f
  | JBool b => Py.float_of_int (if b then 1 else 0)
  | JStr s => Py.float_of_str s
  | JNull | JArr _ | JObj _ => None
  end.

(** [int(v)]; [None] stands for the exception raised. *)
Definition to_int (v : json) : option Z :=
  match v with
  | JInt z => Some z
  | JFloat f => Py.int_of_float f
  | JBool b => Some (if b then 1 else 0)
  | JStr s => Py.int_of_str s
  | JNull | JArr _ | JObj _ => None
  end.

(** A listing as [search_listings] builds it: the dict with exactly these
    ten keys. *)
Record listing := mklisting {
  title : string;
  price : Z;
  rating : Py.float;
  reviews : Z;
  location : string;
  url : string;
  bedrooms : Py.float;
  bathrooms : Py.float;
  max_guests : Z;
  amenities : json
}.

(** [_parse_price]: the dollar amount of the first price item's title,
    "$171 x 3 nights" giving 171. Every other shape of the data, and every
    exception on the way, gives [None]. *)
Definition _parse_price (price_data : option json) : option Z :=
  match price_data with
  | Some (JObj kv) =>
      match get "priceItems" kv with
      | Some (JArr (JObj first :: _)) =>
          match get_or "title" (JStr "") first with
          | JStr t =>
              if (Py.contains "$" t && Py.contains "x" t)%bool then
                match Py.split "$" t with
                | _ :: after :: _ =>
                    match Py.split "x" after with
                    | before :: _ =>
                        match Py.float_of_str (Py.strip before) with
                        | Some f => Py.int_of_float f
                        | None => None
                        end
                    | [] => None
                    end
                | _ => None
                end
              else None
          | _ => None
          end
      | _ => None
      end
  | _ => None
  end.

(** The body of the loop over the results: one item to one listing, or
    [None] when the item is skipped (no price, or an exception while the
    dict is built). [loc] is the location searched for. *)
Definition parse_item (E : env) (loc : string) (item : json) : option listing :=
  match item with
  | JObj kv =>
      match _parse_price (get "price" kv) with
      | None => None
      | Some price_amount =>
          match to_float (or_else (get_or "rating" (JInt 0) kv) (JInt 0)),
                to_int (or_else (get_or "reviewsCount" (JInt 0) kv) (JInt 0)),
                to_float (or_else (get_or "bedrooms" (JInt 0) kv) (JInt 0)),
                to_float (or_else (get_or "bathrooms" (JInt 0) kv) (JInt 0)),
                to_int (or_else (or_else (get_or "maxGuests" (JInt 0) kv)
                                         (get_or "persons" (JInt 0) kv)) (JInt 0))
          with
          | Some r, Some rv, Some bd, Some bt, Some mg =>
              let where_ := Py.strip (py_str E (get_or "city" (JStr "") kv) ++ " "
                                      ++ py_str E (get_or "country" (JStr "") kv)) in
              Some {| title := py_str E (get_or "name" (JStr "") kv);
                      price := price_amount;
                      rating := r;
                      reviews := rv;
                      location := if String.eqb where_ "" then loc else where_;
                      url := "https://www.airbnb.com/rooms/"
                             ++ py_str E (get_or "id" JNull kv);
                      bedrooms := bd;
                      bathrooms := bt;
                      max_guests := mg;
                      amenities := get_or "previewAmenities" (JArr []) kv |}
          | _, _, _, _, _ => None
          end
      end
  | _ => None
  end.

(** The listings appended by the loop, in the order of the results. *)
Fixpoint parse_items (E : env) (loc : string) (items : list json) : list listing :=
  match items with
  | [] => []
  | item :: rest =>
      match parse_item E loc item with
      | Some l => l :: parse_items E loc rest
      | None => parse_items E loc rest
      end
  end.

(** [listings.sort(key=lambda x: x["price"])]: ascending and stable. *)
Fixpoint insert_by_price (x : listing) (l : list listing) : list listing :=
  match l with
  | [] => [x]
  | y :: r => if (price x <=? price y)%Z then x :: y :: r else y :: insert_by_price x r
  end.

Definition sort_by_price (l : list listing) : list listing :=
  fold_right insert_by_price [] l.

(** The order of the sort: by price, ascending. *)
Definition by_price (a b : listing) : Prop := (price a <= price b)%Z.

(** [listings.sort(...); listings = listings[:5]]. *)
Definition top5 (l : list listing) : list listing := firstn 5 (sort_by_price l).

(** The query parameters, the entries that are [None] removed: a price
    bound that is missing or zero is not sent. *)
Definition price_param (name : string) (p : option Z) : list (string * string) :=
  match p with
  | Some z => if (z =? 0)%Z then [] else [(name, Py.str_of_int z)]
  | None => []
  end.

Definition search_params (loc check_in check_out : string) (guests : Z)
    (min_price max_price : option Z) : list (string * string) :=
  [("location", loc); ("checkin", check_in); ("checkout", check_out);
   ("adults", Py.str_of_int guests); ("children", "0"); ("infants", "0");
   ("pets", "0"); ("page", "1"); ("currency", "USD")]
  ++ price_param "priceMin" min_price ++ price_param "priceMax" max_price.

(** What iterating over the results yields: the elements of a list; for a
    text or a dict, texts (characters, keys), none of which is a dict;
    [None] when the value cannot be iterated or measured ([TypeError]). *)
Definition result_items (results : json) : option (list json) :=
  match results with
  | JArr l => Some l
  | JStr s => Some (map (fun a => JStr (String a EmptyString)) (list_ascii_of_string s))
  | JObj kv => Some (map (fun e => JStr (fst e)) kv)
  | JNull | JBool _ | JInt _ | JFloat _ => None
  end.

(** [AirbnbAPI.search_listings]. The [amenities] asked for are accepted and
    not used. Every failure is logged and answered with the empty list. *)
Definition search_listings (E : env) (loc check_in check_out : string) (guests : Z)
    (min_price max_price : option Z) (amenities : list string) : list listing :=
  match http_get E (search_params loc check_in check_out guests min_price max_price) with
  | HttpRaises => []
  | HttpResponse status body =>
      if negb (status =? 200)%Z then []
      else match body with
           | None => []
           | Some (JObj data) =>
               let results := get_or "results" (JArr []) data in
               if negb (truthy results) then []
               else match result_items results with
                    | Some items => top5 (parse_items E loc items)
                    | None => []
                    end
           | Some _ => []
           end
  end.

(** *** The amenity helpers *)

(** [self.amenity_id_mapping]. *)
Definition amenity_id_mapping : list (Z * string) :=
  [(1, "tv"); (4, "wifi"); (5, "air conditioning"); (8, "kitchen"); (9, "parking");
   (33, "washer"); (34, "dryer"); (35, "heating"); (36, "dedicated workspace");
   (40, "pool"); (44, "kitchen"); (45, "wifi"); (46, "parking"); (57, "heating");
   (73, "kitchen"); (77, "wifi"); (79, "parking"); (89, "air conditioning");
   (90, "heating"); (91, "wifi"); (92, "kitchen"); (93, "parking"); (94, "washer");
   (96, "dryer"); (101, "tv"); (137, "kitchen"); (236, "wifi"); (251, "parking");
   (308, "kitchen"); (415, "wifi"); (522, "parking"); (671, "kitchen")].

(** [self.amenity_variations]. *)
Definition amenity_variations : list (string * list string) :=
  [("wifi", ["wifi"; "wireless internet"; "internet"]);
   ("kitchen", ["kitchen"; "full kitchen"; "private kitchen"]);
   ("parking", ["parking"; "free parking"; "private parking"]);
   ("washer", ["washer"; "washing machine"; "laundry"]);
   ("dryer", ["dryer"; "clothes dryer"]);
   ("ac", ["air conditioning"; "ac"; "air-conditioning"]);
   ("heating", ["heating"; "heat"]);
   ("tv", ["tv"; "television"; "cable tv"]);
   ("workspace", ["workspace"; "dedicated workspace"; "laptop friendly"])].

(** [self.amenity_id_mapping[aid]], for an id that is a key. *)
Fixpoint amenity_name (aid : Z) (m : list (Z * string)) : option string :=
  match m with
  | [] => None
  | (k, v) :: r => if (k =? aid)%Z then Some v else amenity_name aid r
  end.

(** The names appended by the loop of [_get_amenities_from_ids]. *)
Fixpoint amenity_names (amenity_ids : list Z) : list string :=
  match amenity_ids with
  | [] => []
  | aid :: r =>
      match amenity_name aid amenity_id_mapping with
      | Some name => name :: amenity_names r
      | None => amenity_names r
      end
  end.

(** [_get_amenities_from_ids]: the names of the ids that are known, each
    once; the order of [list(set(...))] is not specified. *)
Definition _get_amenities_from_ids (amenity_ids : list Z) : list string :=
  elements (list_to_set (amenity_names amenity_ids) : gset string).

(** [self.amenity_variations.get(required_lower, [required_lower])]. *)
Fixpoint variations_of (required_lower : string) (m : list (string * list string))
    : list string :=
  match m with
  | [] => [required_lower]
  | (k, v) :: r => if String.eqb k required_lower then v else variations_of required_lower r
  end.

(** [_check_amenities]: every required amenity has a variation that is
    part of, or has as a part, one of the listing's amenities, letter case
    aside. *)
Definition _check_amenities (listing_amenities required_amenities : list string) : bool :=
  match required_amenities with
  | [] => true
  | _ =>
      let listing_amenities_lower := map Py.lower listing_amenities in
      forallb (fun required =>
                 existsb (fun variation =>
                            existsb (fun amenity =>
                                       (Py.substring variation amenity
                                        || Py.substring amenity variation)%bool)
                                    listing_amenities_lower)
                         (variations_of (Py.lower required) amenity_variations))
              required_amenities
  end.

End Scraper.

(* ===================================================================== *)
(** ** app/models/database.py                                              *)
(* ===================================================================== *)

Module Database.

(** A row of [users]. *)
Record user := mkuser { user_id : Z; telegram_id : string }.

(** The dict [feedback_data] that the bot hands to [from_listing] and to
    the recommendation model. *)
Record feedback_data := mkfeedback_data {
  fd_id : string;
  fd_price : Py.float;
  fd_bedrooms : Z;
  fd_bathrooms : Py.float;
  fd_rating : Py.float;
  fd_location_score : Py.float;
  fd_cleanliness_score : Py.float;
  fd_value_score : Py.float
}.

(** A row of [listing_feedback]: who, which listing, the verdict, and the
    features at the time of the feedback. ([created_at] is the clock's and
    [feedback_text] stays empty.) *)
Record listing_feedback := mkfeedback {
  fb_user_id : Z;
  fb_listing_id : string;
  fb_liked : bool;
  fb_price : Py.float;
  fb_bedrooms : Z;
  fb_bathrooms : Z;
  fb_rating : Py.float;
  fb_location_score : Py.float;
  fb_cleanliness_score : Py.float;
  fb_value_score : Py.float
}.

(** [ListingFeedback.from_listing]: [None] when a conversion raises. *)
Definition from_listing (fd : feedback_data) (uid : Z) (liked : bool)
    : option listing_feedback :=
  match Py.int_of_float (fd_bathrooms fd) with
  | Some baths =>
      Some {| fb_user_id := uid;
              fb_listing_id := fd_id fd;
              fb_liked := liked;
              fb_price := fd_price fd;
              fb_bedrooms := fd_bedrooms fd;
              fb_bathrooms := baths;
              fb_rating := fd_rating fd;
              fb_location_score := fd_location_score fd;
              fb_cleanliness_score := fd_cleanliness_score fd;
              fb_value_score := fd_value_score fd |}
  | None => None
  end.

(** The session: the two tables, rows in the order they were committed. *)
Record db := mkdb { users : list user; feedback : list listing_feedback }.

(** [query(User).filter_by(telegram_id=t).first()]. *)
Definition find_user (t : string) (d : db) : option user :=
  List.find (fun u => String.eqb (telegram_id u) t) (users d).

(** [add(User(telegram_id=t)); commit()]: the next primary key. *)
Definition add_user (t : string) (d : db) : user * db :=
  let u := mkuser (Z.of_nat (length (users d)) + 1) t in
  (u, mkdb (users d ++ [u]) (feedback d)).

(** [add(feedback); commit()]. *)
Definition add_feedback (f : listing_feedback) (d : db) : db :=
  mkdb (users d) (feedback d ++ [f]).

End Database.

(* ===================================================================== *)
(** ** app/bot/telegram_bot.py                                             *)
(* ===================================================================== *)

Module Bot.

(** The conversation states, and [ConversationHandler.END]. *)
Inductive state :=
| LOCATION | SELECT_CHECKIN | SELECT_CHECKOUT | GUESTS | AMENITIES | PRICE_RANGE
| END.

(** An [InlineKeyboardButton] and an [InlineKeyboardMarkup]. *)
Record button := mkbutton { text : string; callback_data : string }.

Definition markup := list (list button).

(** What a handler sends through the chat transport, in order. *)
Inductive action :=
| Answer (alert : option string) (show_alert : bool)
| EditMarkup (m : option markup)
| EditText (t : string) (m : option markup)
| Reply (t : string) (m : option markup)
| EditSearchMessage (t : string).

(** [user_data['selected_amenities']]: a set while the user toggles, a list
    once "Done" was pressed. *)
Inductive selection :=
| AsSet (s : gset string)
| AsList (l : list string).

(** [context.user_data]: the keys the handlers write, each absent or
    present, and the listings shown, under their keys "listing_<id>". *)
Record user_data := mkud {
  ud_location : option string;
  ud_checkin_date : option Cal.date;
  ud_checkout_date : option Cal.date;
  ud_dates : option string;
  ud_calendar_state : option state;
  ud_guests : option Z;
  ud_selected_amenities : option selection;
  ud_listings : gmap string Scraper.listing
}.

Definition empty_user_data : user_data :=
  mkud None None None None None None None ∅.

Definition set_location (v : string) (u : user_data) : user_data :=
  mkud (Some v) (ud_checkin_date u) (ud_checkout_date u) (ud_dates u)
       (ud_calendar_state u) (ud_guests u) (ud_selected_amenities u) (ud_listings u).

Definition set_checkin_date (v : Cal.date) (u : user_data) : user_data :=
  mkud (ud_location u) (Some v) (ud_checkout_date u) (ud_dates u)
       (ud_calendar_state u) (ud_guests u) (ud_selected_amenities u) (ud_listings u).

Definition set_checkout_date (v : Cal.date) (u : user_data) : user_data :=
  mkud (ud_location u) (ud_checkin_date u) (Some v) (ud_dates u)
       (ud_calendar_state u) (ud_guests u) (ud_selected_amenities u) (ud_listings u).

Definition set_dates (v : string) (u : user_data) : user_data :=
  mkud (ud_location u) (ud_checkin_date u) (ud_checkout_date u) (Some v)
       (ud_calendar_state u) (ud_guests u) (ud_selected_amenities u) (ud_listings u).

Definition set_calendar_state (v : state) (u : user_data) : user_data :=
  mkud (ud_location u) (ud_checkin_date u) (ud_checkout_date u) (ud_dates u)
       (Some v) (ud_guests u) (ud_selected_amenities u) (ud_listings u).

Definition set_guests (v : Z) (u : user_data) : user_data :=
  mkud (ud_location u) (ud_checkin_date u) (ud_checkout_date u) (ud_dates u)
       (ud_calendar_state u) (Some v) (ud_selected_amenities u) (ud_listings u).

Definition set_selected_amenities (v : selection) (u : user_data) : user_data :=
  mkud (ud_location u) (ud_checkin_date u) (ud_checkout_date u) (ud_dates u)
       (ud_calendar_state u) (ud_guests u) (Some v) (ud_listings u).

Definition set_listing (key : string) (v : Scraper.listing) (u : user_data) : user_data :=
  mkud (ud_location u) (ud_checkin_date u) (ud_checkout_date u) (ud_dates u)
       (ud_calendar_state u) (ud_guests u) (ud_selected_amenities u)
       (<[key := v]> (ud_listings u)).

(** How a handler ends: it returns a state, returns [None] (the
    conversation stays where it is), or lets an exception escape. *)
Inductive ret :=
| Return (s : option state)
| Raise.

(** A handler run: how it ended, the user data it leaves, what it sent. *)
Record result := mkresult { r_ret : ret; r_ud : user_data; r_out : list action }.

(** The state of the conversation after a handler run from state [cur]. *)
Definition next_state (cur : state) (r : ret) : state :=
  match r with
  | Return (Some s) => s
  | Return None | Raise => cur
  end.

Definition nl : string := String (ascii_of_nat 10) EmptyString.

(** [self.amenities_options], in the order of the dict. *)
Definition amenities_options : list (string * string) :=
  [("wifi", "WiFi 📶"); ("kitchen", "Kitchen 🍳"); ("washer", "Washer 🧺");
   ("dryer", "Dryer 👕"); ("ac", "Air Conditioning ❄️"); ("heating", "Heating 🔥");
   ("tv", "TV 📺"); ("pool", "Pool 🏊‍♂️"); ("gym", "Gym 💪");
   ("parking", "Free Parking 🚗"); ("workspace", "Workspace 💻");
   ("pets", "Pets Allowed 🐾")].

Fixpoint assoc (k : string) (l : list (string * string)) : option string :=
  match l with
  | [] => None
  | (k', v) :: r => if String.eqb k' k then Some v else assoc k r
  end.

(** *** The calendar picker *)

Definition ignore_button (label : string) : button := mkbutton label "ignore".

(** [is_past] of [create_calendar]. *)
Definition is_past (today : Cal.date) (y m d : Z) : bool :=
  ((y <? Cal.year today) ||
   ((y =? Cal.year today) && (m <? Cal.month today)) ||
   ((y =? Cal.year today) && (m =? Cal.month today) && (d <? Cal.day today)))%Z.

(** [date_str] of [create_calendar]. *)
Definition date_str (y m d : Z) : string :=
  Py.str_of_int y ++ "-" ++ Py.fmt_02d m ++ "-" ++ Py.fmt_02d d.

(** The button of one cell of the month grid. *)
Definition day_button (today : Cal.date) (y m : Z) (selected_date : option Cal.date)
    (d : Z) : button :=
  if (d =? 0)%Z then ignore_button " "
  else if is_past today y m d then mkbutton "✗" "ignore"
  else
    let display_day :=
      match selected_date with
      | Some sel => if (Cal.day sel =? d)%Z then "✓" ++ Py.str_of_int d else Py.str_of_int d
      | None => Py.str_of_int d
      end in
    mkbutton display_day ("cal_" ++ date_str y m d).

Definition prev_month (m : Z) : Z := if (1 <? m)%Z then m - 1 else 12.
Definition prev_year (y m : Z) : Z := if (1 <? m)%Z then y else y - 1.
Definition next_month (m : Z) : Z := if (m <? 12)%Z then m + 1 else 1.
Definition next_year (y m : Z) : Z := if (m <? 12)%Z then y else y + 1.

(** [can_go_prev] of [create_calendar]. *)
Definition can_go_prev (today : Cal.date) (y m : Z) : bool :=
  ((Cal.year today <? prev_year y m) ||
   ((prev_year y m =? Cal.year today) && (Cal.month today <=? prev_month m)))%Z.

Definition nav_data (y m : Z) : string :=
  "nav_" ++ Py.str_of_int y ++ "_" ++ Py.str_of_int m.

Definition nav_row (today : Cal.date) (y m : Z) : list button :=
  [ if can_go_prev today y m
    then mkbutton "<<" (nav_data (prev_year y m) (prev_month m))
    else ignore_button " ";
    mkbutton ">>" (nav_data (next_year y m) (next_month m)) ].

Definition week_days : list string := ["Mo"; "Tu"; "We"; "Th"; "Fr"; "Sa"; "Su"].

(** [create_calendar(year, month, selected_date)], with [today] for
    [datetime.now()]. [None] stands for the exception raised at a month
    outside 1..12. *)
Definition create_calendar (today : Cal.date) (y m : Z)
    (selected_date : option Cal.date) : option markup :=
  match Cal.month_name m with
  | None => None
  | Some name =>
      match Cal.monthcalendar y m with
      | None => None
      | Some cal =>
          Some ([ignore_button (name ++ " " ++ Py.str_of_int y)]
                :: map ignore_button week_days
                :: map (map (day_button today y m selected_date)) cal
                ++ [nav_row today y m])
      end
  end.

(** *** The date steps *)

(** [context.user_data.get('calendar_state', SELECT_CHECKIN)]. *)
Definition calendar_state_or_checkin (u : user_data) : state :=
  match ud_calendar_state u with Some s => s | None => SELECT_CHECKIN end.

(** The [except Exception] branch of [handle_calendar]. *)
Definition calendar_error (u : user_data) (out : list action) : result :=
  mkresult (Return (Some (calendar_state_or_checkin u))) u
           (out ++ [Answer (Some "Error processing selection") true]).

(** [handle_calendar], on the callback data of the button pressed, with
    [today] for [datetime.now()]. *)
Definition handle_calendar (today : Cal.date) (data : string) (u : user_data) : result :=
  let out := [Answer None false] in
  if String.eqb data "ignore" then mkresult (Return None) u out
  else
    match Py.split "_" data with
    | [] => mkresult (Return None) u out
    | action :: args =>
        if String.eqb action "nav" then
          match args with
          | a1 :: a2 :: _ =>
              match Py.int_of_str a1, Py.int_of_str a2 with
              | Some y, Some m =>
                  match create_calendar today y m None with
                  | Some calendar_markup =>
                      mkresult (Return (Some (calendar_state_or_checkin u))) u
                               (out ++ [EditMarkup (Some calendar_markup)])
                  | None => calendar_error u out
                  end
              | _, _ => calendar_error u out
              end
          | _ => calendar_error u out
          end
        else if String.eqb action "cal" then
          match args with
          | a1 :: _ =>
              match Cal.strptime a1 with
              | Some selected_date =>
                  match ud_checkin_date u with
                  | None =>
                      let u1 := set_checkin_date selected_date u in
                      match Cal.next_day selected_date with
                      | Some nd =>
                          match create_calendar today (Cal.year nd) (Cal.month nd) None with
                          | Some calendar_markup =>
                              mkresult (Return (Some SELECT_CHECKOUT))
                                (set_calendar_state SELECT_CHECKOUT u1)
                                (out ++ [EditText
                                   ("✅ Check-in: " ++ Cal.strftime selected_date ++ nl
                                    ++ "Select check-out date:")
                                   (Some calendar_markup)])
                          | None => calendar_error u1 out
                          end
                      | None => calendar_error u1 out
                      end
                  | Some checkin =>
                      if Cal.date_le selected_date checkin then
                        mkresult (Return (Some SELECT_CHECKOUT)) u
                          (out ++ [Answer (Some "Please select a date after check-in") true])
                      else
                        let u1 := set_checkout_date selected_date u in
                        let u2 := set_dates (Cal.strftime checkin ++ " to "
                                             ++ Cal.strftime selected_date) u1 in
                        mkresult (Return (Some GUESTS)) u2
                          (out ++ [EditText
                             ("✅ Dates selected!" ++ nl
                              ++ "Check-in: " ++ Cal.strftime checkin ++ nl
                              ++ "Check-out: " ++ Cal.strftime selected_date) None;
                             Reply "How many guests will be staying?" None])
                  end
              | None => calendar_error u out
              end
          | [] => calendar_error u out
          end
        else mkresult (Return None) u out
    end.

(** [search_start]. *)
Definition search_start (u : user_data) : result :=
  mkresult (Return (Some LOCATION)) u
    [Reply ("Let's find you a great place to stay! 🏠" ++ nl
            ++ "Where would you like to go?") None].

(** [location]: the text is kept and the calendar of the current month
    shown. *)
Definition location (today : Cal.date) (msg : string) (u : user_data) : result :=
  let u1 := set_location msg u in
  match create_calendar today (Cal.year today) (Cal.month today) None with
  | Some calendar_markup =>
      mkresult (Return (Some SELECT_CHECKIN)) u1
        [Reply "Please select your check-in date:" (Some calendar_markup)]
  | None => mkresult Raise u1 []
  end.



Definition cancel (u : user_data) : result :=
  mkresult (Return (Some END)) u
    [Reply "Search cancelled. Use /search to start a new search!" None].

(** *** Guests and amenities *)

(** The loop that lays the buttons out two to a row; [row] is the row
    being filled. *)
Fixpoint rows_of_two (l : list button) (row : list button) : list (list button) :=
  match l with
  | [] => match row with [] => [] | _ => [row] end
  | b :: r =>
      if (length row =? 2)%nat then row :: rows_of_two r [b]
      else rows_of_two r (row ++ [b])
  end.

(** The amenities keyboard, a box ticked for the keys [selected] holds. *)
Definition amenities_keyboard (selected : string -> bool) : markup :=
  (rows_of_two
     (map (fun kl => mkbutton ((if selected (fst kl) then "☑" else "☐") ++ " " ++ snd kl)
                              ("amenity_" ++ fst kl ++ "_toggle"))
          amenities_options) []
   ++ [[mkbutton "✅ Done" "amenities_done"]])%list.

(** [guests]. *)
Definition guests (msg : string) (u : user_data) : result :=
  match Py.int_of_str msg with
  | Some g =>
      if ((g <? 1) || (16 <? g))%Z then
        mkresult (Return (Some GUESTS)) u
          [Reply "Please enter a valid number of guests (1-16)" None]
      else
        mkresult (Return (Some AMENITIES))
          (set_selected_amenities (AsSet ∅) (set_guests g u))
          [Reply ("What amenities are important to you? Select all that apply:" ++ nl
                  ++ "(Click an option to select/unselect, then click Done when finished)")
                 (Some (amenities_keyboard (fun _ => false)))]
  | None =>
      mkresult (Return (Some GUESTS)) u
        [Reply "Please enter a valid number of guests (e.g., 2)" None]
  end.

(** [key in selection]. *)
Definition selected (key : string) (sel : selection) : bool :=
  match sel with
  | AsSet s => bool_decide (key ∈ s)
  | AsList l => existsb (String.eqb key) l
  end.

(** [l.remove(key)] on a list: the first occurrence goes. *)
Fixpoint list_remove (key : string) (l : list string) : list string :=
  match l with
  | [] => []
  | x :: r => if String.eqb key x then r else x :: list_remove key r
  end.

(** The toggle: [remove] when the key is in, [add] when it is not. A list
    has no [add]: [None] stands for the [AttributeError]. *)
Definition toggle (key : string) (sel : selection) : option selection :=
  match sel with
  | AsSet s => Some (AsSet (if bool_decide (key ∈ s) then s ∖ {[key]} else s ∪ {[key]}))
  | AsList l => if existsb (String.eqb key) l then Some (AsList (list_remove key l)) else None
  end.

(** [list(selection)]; the order of a set's elements is not specified. *)
Definition selection_list (sel : selection) : list string :=
  match sel with
  | AsSet s => elements s
  | AsList l => l
  end.

(** [amenity_callback], on the callback data of the button pressed. *)
Definition amenity_callback (data : string) (u : user_data) : result :=
  let '(sel, u0) :=
    match ud_selected_amenities u with
    | Some sel => (sel, u)
    | None => (AsSet ∅, set_selected_amenities (AsSet ∅) u)
    end in
  if String.eqb data "amenities_done" then
    mkresult (Return (Some PRICE_RANGE))
      (set_selected_amenities (AsList (selection_list sel)) u0)
      [EditText ("Great! Now, what's your price range per night? (format: min-max)" ++ nl
                 ++ "Example: 100-200" ++ nl
                 ++ "Or just enter a maximum price like: 200") None]
  else
    match Py.split "_" data with
    | [_; amenity_key; _] =>
        match toggle amenity_key sel with
        | Some sel' =>
            mkresult (Return (Some AMENITIES)) (set_selected_amenities sel' u0)
              [EditMarkup (Some (amenities_keyboard (fun k => selected k sel')));
               Answer None false]
        | None => mkresult Raise u0 []
        end
    | _ => mkresult (Return (Some AMENITIES)) u0 [Answer None false]
    end.

(** *** The price step and the search *)

(** The text of the price step: a single integer is the maximum, with the
    minimum 0; otherwise [min-max], exactly two integers around one dash.
    [None] stands for the [ValueError] of [int] or of the unpacking. *)
Definition parse_price_range (price_text : string) : option (Z * Z) :=
  if negb (Py.contains "-" price_text) then
    match Py.int_of_str price_text with
    | Some max_price => Some (0, max_price)
    | None => None
    end
  else
    match Py.split "-" price_text with
    | [a; b] =>
        match Py.int_of_str a, Py.int_of_str b with
        | Some min_price, Some max_price => Some (min_price, max_price)
        | _, _ => None
        end
    | _ => None
    end.

(** [f > z] between a float and a small integer. *)
Definition float_gt (f : Py.float) (z : Z) : bool := SFltb (Py.float_round z 0) f.

(** [listing.get('id', str(hash(f"{url}_{title}")))]: the scraper's
    listings carry no "id". *)
Definition listing_id (E : env) (l : Scraper.listing) : string :=
  Py.str_of_int (py_hash E (Scraper.url l ++ "_" ++ Scraper.title l)).

Fixpoint all_strings (l : list json) : option (list string) :=
  match l with
  | [] => Some []
  | JStr s :: r => option_map (cons s) (all_strings r)
  | _ :: _ => None
  end.

(** The amenities line of a listing's message: nothing for an empty value,
    the first three joined by commas; [None] stands for the [TypeError]
    at a value that cannot be sliced or joined. *)
Definition amenities_line (a : json) : option string :=
  if negb (Scraper.truthy a) then Some EmptyString
  else
    match a with
    | JArr l =>
        match all_strings (firstn 3 l) with
        | Some ss => Some ("✨ " ++ Py.join ", " ss ++ nl)
        | None => None
        end
    | JStr s =>
        Some ("✨ " ++ Py.join ", " (map (fun c => String c EmptyString)
                                         (firstn 3 (list_ascii_of_string s))) ++ nl)
    | _ => None
    end.

Definition plural (f : Py.float) : string := if float_gt f 1 then "s" else "".

(** The text shown for one listing. *)
Definition listing_message (E : env) (l : Scraper.listing) : option string :=
  match amenities_line (Scraper.amenities l) with
  | Some am =>
      Some ("[" ++ Scraper.title l ++ "](" ++ Scraper.url l ++ ")" ++ nl
            ++ "💰 $" ++ Py.str_of_int (Scraper.price l) ++ " per night" ++ nl
            ++ (if float_gt (Scraper.rating l) 0
                then "⭐ " ++ fmt_float1 E (Scraper.rating l) ++ " ("
                     ++ Py.str_of_int (Scraper.reviews l) ++ " reviews)" ++ nl
                else "")
            ++ (if float_gt (Scraper.bedrooms l) 0
                then "🛏 " ++ str_float E (Scraper.bedrooms l) ++ " bedroom"
                     ++ plural (Scraper.bedrooms l) ++ nl
                else "")
            ++ (if float_gt (Scraper.bathrooms l) 0
                then "🚿 " ++ str_float E (Scraper.bathrooms l) ++ " bathroom"
                     ++ plural (Scraper.bathrooms l) ++ nl
                else "")
            ++ (if (0 <? Scraper.max_guests l)%Z
                then "👥 Up to " ++ Py.str_of_int (Scraper.max_guests l) ++ " guests" ++ nl
                else "")
            ++ am
            ++ "📍 " ++ Scraper.location l)
  | None => None
  end.

(** The like and dislike buttons under a listing. *)
Definition feedback_keyboard (id : string) : markup :=
  [[mkbutton "👍 Like" ("feedback_" ++ id ++ "_like");
    mkbutton "👎 Dislike" ("feedback_" ++ id ++ "_dislike")]].

(** The loop over the listings: each is stored under its key and shown.
    The flag is [false] when an exception stopped the loop. *)
Fixpoint show_listings (E : env) (ls : list Scraper.listing) (u : user_data)
    (out : list action) : bool * user_data * list action :=
  match ls with
  | [] => (true, u, out)
  | l :: rest =>
      let id := listing_id E l in
      let u1 := set_listing ("listing_" ++ id) l u in
      match listing_message E l with
      | Some message =>
          show_listings E rest u1 (out ++ [Reply message (Some (feedback_keyboard id))])
      | None => (false, u1, out)
      end
  end.

Fixpoint labels (keys : list string) : option (list string) :=
  match keys with
  | [] => Some []
  | k :: r =>
      match assoc k amenities_options, labels r with
      | Some lab, Some labs => Some (lab :: labs)
      | _, _ => None
      end
  end.

(** The closing summary; [None] stands for the [KeyError] at a selected
    key that is no amenity. *)
Definition final_message (loc : string) (ci co : Cal.date) (g min_price max_price : Z)
    (sel : option selection) : option string :=
  let head :=
    "Those are the best matches I found! 🎉" ++ nl ++ nl
    ++ "📍 *Location:* " ++ loc ++ nl
    ++ "📅 *Dates:* " ++ Cal.strftime ci ++ " to " ++ Cal.strftime co ++ nl
    ++ "👥 *Guests:* " ++ Py.str_of_int g ++ nl
    ++ "💰 *Price Range:* $" ++ Py.str_of_int min_price ++ "-"
    ++ Py.str_of_int max_price ++ nl in
  let tail := nl ++ "The more feedback you provide on listings, "
              ++ "the better I can learn your preferences! 🎯" in
  match sel with
  | None => Some (head ++ tail)
  | Some s =>
      match selection_list s with
      | [] => Some (head ++ tail)
      | keys =>
          match labels keys with
          | Some labs => Some (head ++ "✨ *Amenities:* " ++ Py.join ", " labs ++ nl ++ tail)
          | None => None
          end
      end
  end.

Definition no_results_text : string :=
  "Sorry, no properties found matching your criteria. 😔" ++ nl
  ++ "Try adjusting your:" ++ nl
  ++ "- Price range" ++ nl
  ++ "- Dates" ++ nl
  ++ "- Location" ++ nl
  ++ "- Number of guests" ++ nl ++ nl
  ++ "Use /search to start a new search.".

(** The outer [except Exception] branch of [price_range]. *)
Definition price_error (u : user_data) (out : list action) : result :=
  mkresult (Return (Some PRICE_RANGE)) u
    (out ++ [Reply ("Sorry, something went wrong. "
                    ++ "Please try again with a valid price range (e.g., 100-200)") None]).

(** [price_range], on the text received. *)
Definition price_range (E : env) (price_text : string) (u : user_data) : result :=
  match parse_price_range price_text with
  | None =>
      mkresult (Return (Some PRICE_RANGE)) u
        [Reply (if negb (Py.contains "-" price_text)
                then "Please enter a valid number or range (e.g., 100-200)"
                else "Please enter a valid price range (e.g., 100-200)") None]
  | Some (min_price, max_price) =>
      let out := [Reply "🔍 Searching for properties..." None] in
      match ud_location u, ud_checkin_date u, ud_checkout_date u, ud_guests u with
      | Some loc, Some ci, Some co, Some g =>
          let listings :=
            Scraper.search_listings E loc (Cal.strftime ci) (Cal.strftime co) g
              (Some min_price) (Some max_price)
              (match ud_selected_amenities u with
               | Some sel => selection_list sel
               | None => []
               end) in
          match listings with
          | [] => mkresult (Return (Some END)) u (out ++ [EditSearchMessage no_results_text])
          | _ =>
              let out1 :=
                (out ++ [EditSearchMessage
                           ("🏠 Found " ++ Py.str_of_int (Z.of_nat (length listings))
                            ++ " properties matching your criteria!" ++ nl
                            ++ "Here are the best matches:")])%list in
              match show_listings E listings u out1 with
              | (true, u1, out2) =>
                  match final_message loc ci co g min_price max_price
                                      (ud_selected_amenities u1) with
                  | Some msg => mkresult (Return (Some END)) u1 (out2 ++ [Reply msg None])
                  | None => price_error u1 out2
                  end
              | (false, u1, out2) => price_error u1 out2
              end
          end
      | _, _, _, _ => price_error u out
      end
  end.

(** *** Feedback on a listing *)

(** What the feedback handler leaves: the database, the examples the
    recommendation model was updated with, and what it sent. *)
Record feedback_result := mkfeedback_result {
  f_db : Database.db;
  f_model : list (Database.feedback_data * bool);
  f_out : list action
}.

Definition feedback_error_text : string :=
  "Sorry, there was an error processing your feedback.".

Definition listing_missing_text : string :=
  "Sorry, I couldn't find this listing's information. Please try searching again.".

(** The dict [feedback_data] built from the stored listing; the three
    scores are keys the listing does not have. [None] stands for the
    exception of a conversion. *)
Definition make_feedback_data (id : string) (l : Scraper.listing)
    : option Database.feedback_data :=
  match Py.float_of_int (Scraper.price l), Py.int_of_float (Scraper.bedrooms l) with
  | Some p, Some b =>
      Some (Database.mkfeedback_data id p b (Scraper.bathrooms l) (Scraper.rating l)
              Py.float_zero Py.float_zero Py.float_zero)
  | _, _ => None
  end.

(** [handle_listing_feedback], on the callback data of the button pressed
    by the user [uid]; [model] is the list of examples the recommendation
    model was updated with so far. *)
Definition handle_listing_feedback (uid : Z) (data : string) (u : user_data)
    (d : Database.db) (model : list (Database.feedback_data * bool)) : feedback_result :=
  let out := [Answer None false] in
  match Py.split "_" data with
  | _ :: id :: action :: _ =>
      match ud_listings u !! ("listing_" ++ id) with
      | None =>
          mkfeedback_result d model
            (out ++ [EditMarkup None; Reply listing_missing_text None])
      | Some l =>
          let '(user, d1) :=
            match Database.find_user (Py.str_of_int uid) d with
            | Some user => (user, d)
            | None => Database.add_user (Py.str_of_int uid) d
            end in
          match make_feedback_data id l with
          | Some fd =>
              let liked := String.eqb action "like" in
              match Database.from_listing fd (Database.user_id user) liked with
              | Some fb =>
                  let emoji := if liked then "👍" else "👎" in
                  mkfeedback_result (Database.add_feedback fb d1) (model ++ [(fd, liked)])
                    (out ++ [EditMarkup (Some [[mkbutton ("You rated " ++ emoji) "dummy"]]);
                             Reply (emoji ++ " Thanks for your feedback! "
                                    ++ "I'll use this to improve your recommendations." ++ nl
                                    ++ "The more feedback you provide, "
                                    ++ "the better I'll understand your preferences!") None])
              | None => mkfeedback_result d1 model (out ++ [Reply feedback_error_text None])
              end
          | None => mkfeedback_result d1 model (out ++ [Reply feedback_error_text None])
          end
      end
  | _ => mkfeedback_result d model (out ++ [Reply feedback_error_text None])
  end.

(** *** The date steps as a machine *)

(** The calendar message as the user sees it: the keyboard left on it by
    what a handler sent. *)
Definition shown (cal : option markup) (out : list action) : option markup :=
  fold_left (fun c a =>
               match a with
               | EditMarkup m => m
               | EditText _ m => m
               | Reply _ (Some m) => Some m
               | _ => c
               end) out cal.

(** A session in the date steps: the state of the conversation, the user
    data and the calendar on display. *)
Record session := mksession {
  conv : state;
  data : user_data;
  calendar : option markup
}.

(** The session once [location] has handled the text [msg]. *)
Definition start (today : Cal.date) (msg : string) (u : user_data) : session :=
  let r := location today msg u in
  mksession (next_state LOCATION (r_ret r)) (r_ud r) (shown None (r_out r)).




(** The month [(y, m)] is strictly before the month of [today]. *)
Definition month_before (today : Cal.date) (y m : Z) : bool :=
  ((y <? Cal.year today) || ((y =? Cal.year today) && (m <? Cal.month today)))%Z.


(** What a day cell of the grid must be: disabled exactly when its date is
    before [today], and otherwise carrying its date. *)
Definition day_cell (today : Cal.date) (y m d : Z) (b : button) : Prop :=
  d <> 0 ->
  (callback_data b = "ignore" <-> Cal.date_lt (Cal.mkdate y m d) today = true) /\
  (Cal.date_lt (Cal.mkdate y m d) today = false ->
   callback_data b = "cal_" ++ date_str y m d).

(** *** The commands outside the conversation *)

(** [start]: the user is looked up and, when absent, created; the welcome
    is sent. *)
Definition start_command (uid : Z) (first_name : string) (d : Database.db)
    : Database.db * list action :=
  let d1 :=
    match Database.find_user (Py.str_of_int uid) d with
    | Some _ => d
    | None => snd (Database.add_user (Py.str_of_int uid) d)
    end in
  (d1,
   [Reply ("👋 Hi " ++ first_name ++ "! I'm your Airbnb recommendation assistant." ++ nl ++ nl
           ++ "I can help you find the perfect place to stay based on your preferences."
           ++ nl ++ nl
           ++ "Commands:" ++ nl
           ++ "/search - Start searching for accommodations" ++ nl
           ++ "/stats - View your search statistics and preferences" ++ nl
           ++ "/help - Show this help message") None]).





(** The first touch of [start] and of [handle_listing_feedback]: the row
    of the user, created when there is none, and the database after. *)
Definition first_touch (t : string) (d : Database.db) : Database.user * Database.db :=
  match Database.find_user t d with
  | Some user => (user, d)
  | None => Database.add_user t d
  end.

(** The two user data agree on everything but the listings shown. *)
Definition same_criteria (u u' : user_data) : Prop :=
  ud_location u' = ud_location u
  /\ ud_checkin_date u' = ud_checkin_date u
  /\ ud_checkout_date u' = ud_checkout_date u
  /\ ud_dates u' = ud_dates u
  /\ ud_calendar_state u' = ud_calendar_state u
  /\ ud_guests u' = ud_guests u
  /\ ud_selected_amenities u' = ud_selected_amenities u.


End Bot.

(* ===================================================================== *)
(** ** Facts about the text built-ins                                      *)
(* ===================================================================== *)

(* ===================================================================== *)
(** ** Inputs of the worked examples                                       *)
(* ===================================================================== *)

Module Ex.

Definition today : Cal.date := Cal.mkdate 2024 1 15.

(** The user data when the price step is reached: Paris, 10 to 15 June,
    two guests, no amenity. *)
Definition paris : Bot.user_data :=
  Bot.mkud (Some "Paris") (Some (Cal.mkdate 2024 6 10)) (Some (Cal.mkdate 2024 6 15))
           (Some "2024-06-10 to 2024-06-15") (Some Bot.SELECT_CHECKOUT) (Some 2)
           (Some (Bot.AsList [])) ∅.

(** The user data in the check-out step: check-in on 10 June. *)
Definition checked_in : Bot.user_data :=
  Bot.mkud (Some "Paris") (Some (Cal.mkdate 2024 6 10)) None None
           (Some Bot.SELECT_CHECKOUT) None None ∅.

(** The user data in the amenities step, "wifi" selected. *)
Definition choosing : Bot.user_data :=
  Bot.mkud (Some "Paris") (Some (Cal.mkdate 2024 6 10)) (Some (Cal.mkdate 2024 6 15))
           (Some "2024-06-10 to 2024-06-15") (Some Bot.SELECT_CHECKOUT) (Some 2)
           (Some (Bot.AsSet {["wifi"]})) ∅.

(** The floats 1.5, 2.0 and 4.5. *)
Definition f1_5 : Py.float := S754_finite false 6755399441055744 (-52).
Definition f2_0 : Py.float := S754_finite false 4503599627370496 (-51).
Definition f4_5 : Py.float := S754_finite false 5066549580791808 (-50).

(** A listing with one bathroom and a half. *)
Definition loft : Scraper.listing :=
  Scraper.mklisting "Loft" 120 f4_5 10 "Paris France" "https://www.airbnb.com/rooms/42"
                    f2_0 f1_5 4 (JArr [JStr "Wifi"]).

(** The user data after [loft] was shown under the id "42". *)
Definition shown_loft : Bot.user_data := Bot.set_listing "listing_42" loft paris.

Definition no_rows : Database.db := Database.mkdb [] [].

(** Providers: one that answers 500, one whose request raises, one that
    answers with the given results. *)
Definition http_500 (_ : list (string * string)) : http_result := HttpResponse 500 None.
Definition http_raises (_ : list (string * string)) : http_result := HttpRaises.
Definition http_results (results : list json) (_ : list (string * string)) : http_result :=
  HttpResponse 200 (Some (JObj [("results", JArr results)])).

(** A result item with the given id and price title. *)
Definition item (id : Z) (price_title : string) : json :=
  JObj [("id", JInt id); ("name", JStr "Flat");
        ("price", JObj [("priceItems", JArr [JObj [("title", JStr price_title)]])])].

Definition seven_items : list json :=
  [item 1 "$300 x 5 nights"; item 2 "$120 x 5 nights"; item 3 "$250 x 5 nights";
   item 4 "$90 x 5 nights"; item 5 "$410 x 5 nights"; item 6 "$175 x 5 nights";
   item 7 "$200 x 5 nights"].

(** The cheapest of the listings that [seven_items] gives. *)
Definition cheapest : Scraper.listing :=
  Scraper.mklisting "Flat" 90 Py.float_zero 0 "Paris" "https://www.airbnb.com/rooms/4"
                    Py.float_zero Py.float_zero 0 (JArr []).

(** [loft] as a later result has it, at another price. *)
Definition loft_later : Scraper.listing :=
  Scraper.mklisting "Loft" 150 f4_5 10 "Paris France" "https://www.airbnb.com/rooms/42"
                    f2_0 f1_5 4 (JArr [JStr "Wifi"]).

(** A listing whose number of bedrooms is infinite. *)
Definition endless : Scraper.listing :=
  Scraper.mklisting "Castle" 900 f4_5 3 "Paris France" "https://www.airbnb.com/rooms/43"
                    (S754_infinity false) f1_5 4 (JArr []).

(** The user data after [endless] was shown under the id "43". *)
Definition shown_endless : Bot.user_data := Bot.set_listing "listing_43" endless paris.


End Ex.

(** Case analysis on the integer comparisons in sight. *)
Ltac bool_cases :=
  repeat match goal with
         | |- context [(?a <? ?b)%Z] => destruct (Z.ltb_spec a b)
         | |- context [(?a <=? ?b)%Z] => destruct (Z.leb_spec a b)
         | |- context [(?a =? ?b)%Z] => destruct (Z.eqb_spec a b)
         | H : context [(?a <? ?b)%Z] |- _ => destruct (Z.ltb_spec a b)
         | H : context [(?a <=? ?b)%Z] |- _ => destruct (Z.leb_spec a b)
         | H : context [(?a =? ?b)%Z] |- _ => destruct (Z.eqb_spec a b)
         end; simpl in *; try discriminate; try reflexivity; try lia.

Section TextFacts.

Lemma split_no_sep sep s : Py.contains sep s = false -> Py.split sep s = [s].
Proof.
  induction s as [|a s IH]; simpl; [reflexivity|].
  destruct (Ascii.eqb a sep); [discriminate|].
  intros H. rewrite (IH H). reflexivity.
Qed.

Lemma split_app sep s1 s2 :
  Py.contains sep s1 = false ->
  Py.split sep (s1 ++ String sep s2) = s1 :: Py.split sep s2.
Proof.
  induction s1 as [|a s1 IH]; simpl.
  - intros _. rewrite Ascii.eqb_refl. reflexivity.
  - destruct (Ascii.eqb a sep); [discriminate|].
    intros H. rewrite (IH H). reflexivity.
Qed.

Lemma contains_app c s1 s2 :
  Py.contains c (s1 ++ s2) = (Py.contains c s1 || Py.contains c s2)%bool.
Proof.
  induction s1 as [|a s1 IH]; simpl; [reflexivity|].
  destruct (Ascii.eqb a c); [reflexivity|exact IH].
Qed.

Lemma digit_char_is_digit d : 0 <= d < 10 -> Py.is_digit (Py.digit_char d) = true.
Proof.
  intros H.
  assert (Hc : d = 0 \/ d = 1 \/ d = 2 \/ d = 3 \/ d = 4 \/ d = 5 \/ d = 6 \/ d = 7
               \/ d = 8 \/ d = 9) by lia.
  repeat (destruct Hc as [-> | Hc]; [reflexivity|]); subst; reflexivity.
Qed.

Lemma digit_char_val d : 0 <= d < 10 -> Py.digit_val (Py.digit_char d) = d.
Proof.
  intros H.
  assert (Hc : d = 0 \/ d = 1 \/ d = 2 \/ d = 3 \/ d = 4 \/ d = 5 \/ d = 6 \/ d = 7
               \/ d = 8 \/ d = 9) by lia.
  repeat (destruct Hc as [-> | Hc]; [reflexivity|]); subst; reflexivity.
Qed.

Lemma digits_of_all_digits fuel : forall n acc,
  0 <= n -> Py.all_chars Py.is_digit acc = true ->
  Py.all_chars Py.is_digit (Py.digits_of fuel n acc) = true.
Proof.
  induction fuel as [|f IH]; intros n acc Hn Hacc; simpl; [exact Hacc|].
  assert (Hd : Py.is_digit (Py.digit_char (n mod 10)) = true)
    by (apply digit_char_is_digit; apply Z.mod_pos_bound; lia).
  destruct (n <? 10)%Z.
  - simpl. rewrite Hd. exact Hacc.
  - apply IH; [apply Z.div_pos; lia|]. simpl. rewrite Hd. exact Hacc.
Qed.

Lemma digits_of_nonempty fuel n acc : Py.digits_of (S fuel) n acc <> EmptyString.
Proof.
  revert n acc. induction fuel as [|f IH]; intros n acc.
  - simpl. destruct (n <? 10)%Z; discriminate.
  - change (Py.digits_of (S (S f)) n acc)
      with (let acc' := String (Py.digit_char (n mod 10)) acc in
            if (n <? 10)%Z then acc' else Py.digits_of (S f) (n / 10) acc').
    cbv zeta. destruct (n <? 10)%Z; [discriminate|apply IH].
Qed.

(** Reading back the digits that [digits_of] wrote: the value read so far
    is shifted and [n] added, for some number [k >= 1] of digits. *)
Lemma digitpart_digits_of fuel : forall n rest,
  0 <= n -> n < 10 ^ Z.of_nat (S fuel) ->
  exists k, 1 <= k /\ forall prev acc cnt,
    Py.digitpart (Py.digits_of (S fuel) n rest) prev acc cnt
    = Py.digitpart rest true (acc * 10 ^ k + n) (cnt + k).
Proof.
  induction fuel as [|f IH]; intros n rest Hn Hlt;
    assert (Hm : 0 <= n mod 10 < 10) by (apply Z.mod_pos_bound; lia).
  - assert (Hsmall : n < 10) by (simpl in Hlt; lia).
    exists 1. split; [lia|]. intros prev acc cnt.
    simpl Py.digits_of. destruct (n <? 10)%Z;
      simpl Py.digitpart; rewrite digit_char_is_digit by exact Hm;
      rewrite digit_char_val by exact Hm;
      rewrite Z.mod_small by lia; f_equal; lia.
  - change (Py.digits_of (S (S f)) n rest)
      with (let acc' := String (Py.digit_char (n mod 10)) rest in
            if (n <? 10)%Z then acc' else Py.digits_of (S f) (n / 10) acc').
    cbv zeta. destruct (n <? 10)%Z eqn:E.
    + apply Z.ltb_lt in E. exists 1. split; [lia|]. intros prev acc cnt.
      simpl Py.digitpart. rewrite digit_char_is_digit by exact Hm.
      rewrite digit_char_val by exact Hm.
      rewrite Z.mod_small by lia. f_equal; lia.
    + apply Z.ltb_ge in E.
      destruct (IH (n / 10) (String (Py.digit_char (n mod 10)) rest)) as (k & Hk & Heq).
      * apply Z.div_pos; lia.
      * apply Z.div_lt_upper_bound; [lia|].
        rewrite Nat2Z.inj_succ, Z.pow_succ_r in Hlt by lia. lia.
      * exists (k + 1). split; [lia|]. intros prev acc cnt.
        rewrite Heq. simpl Py.digitpart.
        rewrite digit_char_is_digit by exact Hm.
        rewrite digit_char_val by exact Hm.
        f_equal; [|lia].
        rewrite Z.pow_add_r by lia.
        pose proof (Z.div_mod n 10 ltac:(lia)). lia.
Qed.

Lemma log2_fuel n : 0 <= n -> n < 10 ^ Z.of_nat (S (Z.to_nat (Z.log2 n))).
Proof.
  intros Hn. destruct (Z.eq_dec n 0) as [->|Hne].
  - simpl. lia.
  - assert (Hpos : 0 < n) by lia.
    pose proof (Z.log2_spec n Hpos) as [_ Hub].
    pose proof (Z.log2_nonneg n) as Hl.
    rewrite Nat2Z.inj_succ, Z2Nat.id by lia.
    eapply Z.lt_le_trans; [exact Hub|].
    apply Z.pow_le_mono_l. lia.
Qed.

Lemma digitpart_str_nonneg n :
  0 <= n ->
  exists k, Py.digitpart (Py.digits_of (S (Z.to_nat (Z.log2 n))) n EmptyString) false 0 0
            = Some (n, k).
Proof.
  intros Hn.
  destruct (digitpart_digits_of (Z.to_nat (Z.log2 n)) n EmptyString Hn (log2_fuel n Hn))
    as (k & Hk & Heq).
  exists (0 + k). rewrite Heq. simpl.
  replace (0 * 10 ^ k + n) with n by lia. reflexivity.
Qed.

Lemma is_digit_not_space a : Py.is_digit a = true -> Py.is_space a = false.
Proof.
  unfold Py.is_digit, Py.is_space. cbv zeta. intros H.
  apply andb_true_iff in H as [H1 H2].
  apply Z.leb_le in H1. apply Z.leb_le in H2.
  apply orb_false_iff; split; apply andb_false_iff.
  - right. apply Z.leb_gt. lia.
  - right. apply Z.leb_gt. lia.
Qed.

Lemma rstrip_digits s : Py.all_chars Py.is_digit s = true -> Py.rstrip s = s.
Proof.
  induction s as [|a s IH]; simpl; [reflexivity|].
  intros H. apply andb_true_iff in H as [Ha Hs].
  rewrite (IH Hs). destruct s; [|reflexivity].
  rewrite (is_digit_not_space _ Ha). reflexivity.
Qed.

Lemma strip_digits s : Py.all_chars Py.is_digit s = true -> Py.strip s = s.
Proof.
  intros H. unfold Py.strip.
  destruct s as [|a s]; [reflexivity|].
  simpl in H. apply andb_true_iff in H as [Ha Hs].
  simpl Py.lstrip. rewrite (is_digit_not_space _ Ha).
  apply rstrip_digits. simpl. rewrite Ha. exact Hs.
Qed.

Lemma all_chars_contains p c s :
  Py.all_chars p s = true -> p c = false -> Py.contains c s = false.
Proof.
  intros Hs Hc. induction s as [|a s IH]; simpl; [reflexivity|].
  simpl in Hs. apply andb_true_iff in Hs as [Ha Hs].
  destruct (Ascii.eqb a c) eqn:E; [|exact (IH Hs)].
  apply Ascii.eqb_eq in E. congruence.
Qed.

Lemma all_chars_impl (p q : ascii -> bool) s :
  (forall a, p a = true -> q a = true) -> Py.all_chars p s = true -> Py.all_chars q s = true.
Proof.
  intros Hpq. induction s as [|a s IH]; simpl; [reflexivity|].
  intros H. apply andb_true_iff in H as [Ha Hs].
  rewrite (Hpq _ Ha), (IH Hs). reflexivity.
Qed.


Lemma str_of_int_nonneg_digits z :
  0 <= z -> Py.all_chars Py.is_digit (Py.str_of_int z) = true.
Proof.
  intros Hz. unfold Py.str_of_int.
  destruct (z <? 0)%Z eqn:E; [apply Z.ltb_lt in E; lia|].
  apply digits_of_all_digits; [exact Hz|reflexivity].
Qed.

Lemma str_of_int_chars z : Py.all_chars Py.int_char (Py.str_of_int z) = true.
Proof.
  unfold Py.str_of_int. destruct (z <? 0)%Z eqn:E.
  - apply Z.ltb_lt in E. cbn [Py.all_chars].
    apply andb_true_iff; split; [reflexivity|].
    apply all_chars_impl with (p := Py.is_digit).
    + intros a Ha. unfold Py.int_char. rewrite Ha. reflexivity.
    + apply digits_of_all_digits; [lia|reflexivity].
  - apply Z.ltb_ge in E.
    apply all_chars_impl with (p := Py.is_digit).
    + intros a Ha. unfold Py.int_char. rewrite Ha. reflexivity.
    + apply digits_of_all_digits; [lia|reflexivity].
Qed.

Lemma str_of_int_no_underscore z : Py.contains "_" (Py.str_of_int z) = false.
Proof. apply all_chars_contains with (p := Py.int_char); [apply str_of_int_chars|reflexivity]. Qed.

Lemma int_of_str_digits s :
  Py.all_chars Py.is_digit s = true ->
  Py.int_of_str s = option_map fst (Py.digitpart s false 0 0).
Proof.
  intros H. unfold Py.int_of_str. rewrite (strip_digits _ H).
  destruct s as [|a s']; [reflexivity|].
  simpl in H. apply andb_true_iff in H as [Ha _].
  destruct a as [[] [] [] [] [] [] [] []]; try discriminate Ha; reflexivity.
Qed.

(** [int(str(z)) == z]. *)
Lemma int_of_str_of_int z : Py.int_of_str (Py.str_of_int z) = Some z.
Proof.
  destruct (Z.ltb_spec z 0) as [Hneg|Hpos].
  - unfold Py.str_of_int. destruct (Z.ltb_spec z 0) as [_|?]; [|lia].
    set (ds := Py.digits_of _ _ _).
    assert (Hds : Py.all_chars Py.is_digit ds = true)
      by (apply digits_of_all_digits; [lia|reflexivity]).
    assert (Hne : ds <> EmptyString) by apply digits_of_nonempty.
    destruct (digitpart_str_nonneg (- z)) as (k & Hk); [lia|]. fold ds in Hk.
    unfold Py.int_of_str, Py.strip. simpl Py.lstrip.
    change (Py.is_space "-") with false. cbv iota.
    simpl Py.rstrip. rewrite (rstrip_digits _ Hds).
    destruct ds as [|a ds']; [congruence|].
    rewrite Hk. f_equal. lia.
  - rewrite int_of_str_digits by (apply str_of_int_nonneg_digits; exact Hpos).
    unfold Py.str_of_int. destruct (Z.ltb_spec z 0) as [?|_]; [lia|].
    destruct (digitpart_str_nonneg z Hpos) as (k & Hk). rewrite Hk. reflexivity.
Qed.

End TextFacts.

(* ===================================================================== *)
(** ** The calendar picker                                                 *)
(* ===================================================================== *)

Section CalendarFacts.

Import Bot.

Lemma month_name_some m : 1 <= m <= 12 -> exists name, Cal.month_name m = Some name.
Proof.
  intros H. unfold Cal.month_name.
  destruct ((0 <=? m) && (m <=? 12))%Z eqn:E.
  - destruct (nth_error Cal.month_names (Z.to_nat m)) eqn:N; [eauto|].
    apply nth_error_None in N. simpl in N. lia.
  - apply andb_false_iff in E as [E|E]; [apply Z.leb_gt in E|apply Z.leb_gt in E]; lia.
Qed.

Lemma is_past_date_lt today y m d :
  is_past today y m d = Cal.date_lt (Cal.mkdate y m d) today.
Proof. reflexivity. Qed.

Lemma day_button_cell today y m sel d : day_cell today y m d (day_button today y m sel d).
Proof.
  intros Hd. unfold day_button.
  destruct (Z.eqb_spec d 0) as [?|_]; [contradiction|].
  rewrite is_past_date_lt.
  destruct (Cal.date_lt (Cal.mkdate y m d) today) eqn:E; simpl.
  - split; [tauto|discriminate].
  - split; [split; discriminate|reflexivity].
Qed.

Lemma Forall2_map_grid {A B} (P : A -> B -> Prop) (f : A -> B) (g : list (list A)) :
  (forall a, P a (f a)) -> Forall2 (Forall2 P) g (map (map f) g).
Proof.
  intros H. induction g as [|row g IH]; simpl; constructor; [|exact IH].
  induction row; simpl; constructor; auto.
Qed.

Lemma range_In n k : 0 <= k < n -> In k (Cal.range n).
Proof.
  intros H. unfold Cal.range. apply in_map_iff. exists (Z.to_nat k).
  split; [lia|]. apply in_seq. lia.
Qed.

Lemma weekday_bounds y m d : 0 <= Cal.weekday y m d < 7.
Proof. unfold Cal.weekday. apply Z.mod_pos_bound. lia. Qed.

(** Every day of the month has its cell in the grid. *)
Lemma monthcalendar_has_day y m cal d :
  Cal.monthcalendar y m = Some cal ->
  1 <= d <= Cal.days_in_month y m ->
  exists week, In week cal /\ In d week.
Proof.
  unfold Cal.monthcalendar. destruct ((1 <=? m) && (m <=? 12))%Z; [|discriminate].
  intros [= <-] Hd.
  pose proof (weekday_bounds y m 1) as Hw.
  set (day1 := Cal.weekday y m 1) in *.
  set (ndays := Cal.days_in_month y m) in *.
  set (idx := d - 1 + day1).
  assert (Hdm : idx = 7 * (idx / 7) + idx mod 7) by (apply Z.div_mod; lia).
  assert (Hmod : 0 <= idx mod 7 < 7) by (apply Z.mod_pos_bound; lia).
  assert (Hdiv : 0 <= idx / 7) by (apply Z.div_pos; lia).
  assert (Hk : idx / 7 < (day1 + ndays + 6) / 7).
  { apply Z.div_lt_upper_bound; [lia|].
    pose proof (Z.mul_div_le (day1 + ndays + 6) 7 ltac:(lia)).
    pose proof (Z.mod_pos_bound (day1 + ndays + 6) 7 ltac:(lia)).
    pose proof (Z.div_mod (day1 + ndays + 6) 7 ltac:(lia)). lia. }
  exists (map (fun j => let d' := 7 * (idx / 7) + j - day1 + 1 in
                        if ((1 <=? d') && (d' <=? ndays))%Z then d' else 0) (Cal.range 7)).
  split.
  - apply in_map_iff. exists (idx / 7). split; [reflexivity|].
    apply range_In. lia.
  - apply in_map_iff. exists (idx mod 7). split; [|apply range_In; lia].
    cbv zeta.
    replace (7 * (idx / 7) + idx mod 7 - day1 + 1) with d by lia.
    destruct (Z.leb_spec 1 d); [|lia]. destruct (Z.leb_spec d ndays); [|lia]. reflexivity.
Qed.

(** For a month in 1..12 the calendar is rendered, and it is the grid of
    the weeks of [monthcalendar] between the two header rows and the
    navigation row. *)
Lemma create_calendar_grid today y m sel :
  1 <= m <= 12 ->
  exists name cal,
    Cal.monthcalendar y m = Some cal /\
    create_calendar today y m sel
      = Some ([ignore_button (name ++ " " ++ Py.str_of_int y)]
              :: map ignore_button week_days
              :: map (map (day_button today y m sel)) cal ++ [nav_row today y m]).
Proof.
  intros Hm. unfold create_calendar.
  destruct (month_name_some m Hm) as (name & ->).
  destruct (Cal.monthcalendar y m) as [cal|] eqn:Hcal; [eauto|].
  unfold Cal.monthcalendar in Hcal.
  destruct (Z.leb_spec 1 m); [|lia]. destruct (Z.leb_spec m 12); [|lia]. discriminate.
Qed.

End CalendarFacts.

Section NavigationFacts.

Import Bot.





Lemma split_nav_token y m :
  Py.split "_" (nav_data y m) = ["nav"; Py.str_of_int y; Py.str_of_int m].
Proof.
  change (nav_data y m)
    with ("nav" ++ String "_" (Py.str_of_int y ++ String "_" (Py.str_of_int m))).
  rewrite split_app by reflexivity.
  rewrite split_app by apply str_of_int_no_underscore.
  rewrite split_no_sep by apply str_of_int_no_underscore. reflexivity.
Qed.

Lemma create_calendar_some today y m sel :
  1 <= m <= 12 -> exists mk, create_calendar today y m sel = Some mk.
Proof.
  intros Hm. destruct (create_calendar_grid today y m sel Hm) as (name & cal & _ & ->).
  eauto.
Qed.

Lemma create_calendar_month today y m sel mk :
  create_calendar today y m sel = Some mk -> 1 <= m <= 12.
Proof.
  unfold create_calendar. destruct (Cal.month_name m); [|discriminate].
  unfold Cal.monthcalendar.
  destruct (Z.leb_spec 1 m); [|discriminate].
  destruct (Z.leb_spec m 12); [|discriminate]. lia.
Qed.

(** A navigation event is not checked against the current month: the
    calendar of the month asked for is rendered. *)
Lemma handle_calendar_nav today y m u mk :
  create_calendar today y m None = Some mk ->
  handle_calendar today (nav_data y m) u
  = mkresult (Return (Some (calendar_state_or_checkin u))) u
             [Answer None false; EditMarkup (Some mk)].
Proof.
  intros Hmk. unfold handle_calendar.
  change (String.eqb (nav_data y m) "ignore") with false. cbv iota.
  rewrite split_nav_token.
  change (String.eqb "nav" "nav") with true. cbv iota.
  rewrite !int_of_str_of_int, Hmk. reflexivity.
Qed.



Lemma append_cons a s t : String a s ++ t = String a (s ++ t).
Proof. reflexivity. Qed.

Lemma append_nil t : EmptyString ++ t = t.
Proof. reflexivity. Qed.


Lemma strp_month_fmt m rest :
  1 <= m <= 12 -> Cal.strp_month (Py.fmt_02d m ++ String "-" rest) = Some (m, rest).
Proof.
  intros H.
  assert (Hc : m = 1 \/ m = 2 \/ m = 3 \/ m = 4 \/ m = 5 \/ m = 6 \/ m = 7 \/ m = 8
               \/ m = 9 \/ m = 10 \/ m = 11 \/ m = 12) by lia.
  repeat (destruct Hc as [-> | Hc]; [reflexivity|]). subst. reflexivity.
Qed.

Lemma strp_day_fmt d : 1 <= d <= 31 -> Cal.strp_day (Py.fmt_02d d) = Some d.
Proof.
  intros H.
  assert (Hc : d = 1 \/ d = 2 \/ d = 3 \/ d = 4 \/ d = 5 \/ d = 6 \/ d = 7 \/ d = 8
               \/ d = 9 \/ d = 10 \/ d = 11 \/ d = 12 \/ d = 13 \/ d = 14 \/ d = 15
               \/ d = 16 \/ d = 17 \/ d = 18 \/ d = 19 \/ d = 20 \/ d = 21 \/ d = 22
               \/ d = 23 \/ d = 24 \/ d = 25 \/ d = 26 \/ d = 27 \/ d = 28 \/ d = 29
               \/ d = 30 \/ d = 31) by lia.
  repeat (destruct Hc as [-> | Hc]; [reflexivity|]). subst. reflexivity.
Qed.




Lemma days_in_month_le_31 y m : Cal.days_in_month y m <= 31.
Proof.
  unfold Cal.days_in_month.
  destruct (Z.eqb_spec m 2) as [->|Hne].
  - simpl. destruct (Cal.isleap y); simpl; lia.
  - simpl andb. cbv iota.
    destruct (Z.to_nat (m - 1)) as [|[|[|[|[|[|[|[|[|[|[|[|[|k]]]]]]]]]]]]]; simpl; lia.
Qed.

Lemma month_cell_range (x n : Z) :
  n <= 31 ->
  (if ((1 <=? x) && (x <=? n))%Z then x else 0) = 0
  \/ 1 <= (if ((1 <=? x) && (x <=? n))%Z then x else 0) <= 31.
Proof.
  intros Hn. destruct (Z.leb_spec 1 x); simpl; [|left; reflexivity].
  destruct (Z.leb_spec x n); [right; lia|left; reflexivity].
Qed.

Lemma monthcalendar_cell y m cal week d :
  Cal.monthcalendar y m = Some cal -> In week cal -> In d week ->
  d = 0 \/ 1 <= d <= 31.
Proof.
  unfold Cal.monthcalendar. destruct ((1 <=? m) && (m <=? 12))%Z; [|discriminate].
  intros Heq Hw Hd. injection Heq as Heq. rewrite <- Heq in Hw.
  apply in_map_iff in Hw as (k & Hk & _). rewrite <- Hk in Hd.
  pose proof (days_in_month_le_31 y m) as Hle.
  repeat (destruct Hd as [Hd|Hd]; [rewrite <- Hd; apply month_cell_range; exact Hle|]).
  destruct Hd.
Qed.

(** What the buttons of a rendered calendar carry: the ignore action, the
    date of a day that is not past, the previous month when that month is
    not before the current one, or the next month. *)
Lemma calendar_buttons today y m sel mk row b :
  create_calendar today y m sel = Some mk -> In row mk -> In b row ->
  callback_data b = "ignore"
  \/ (exists d, 1 <= d <= 31 /\ is_past today y m d = false
                /\ callback_data b = "cal_" ++ date_str y m d)
  \/ (can_go_prev today y m = true
      /\ callback_data b = nav_data (prev_year y m) (prev_month m))
  \/ callback_data b = nav_data (next_year y m) (next_month m).
Proof.
  unfold create_calendar. destruct (Cal.month_name m) as [name|]; [|discriminate].
  destruct (Cal.monthcalendar y m) as [cal|] eqn:Hcal; [|discriminate].
  intros [= <-] Hrow Hb.
  destruct Hrow as [<-|[<-|Hrow]].
  - destruct Hb as [<-|[]]. left. reflexivity.
  - repeat (destruct Hb as [<-|Hb]; [left; reflexivity|]). destruct Hb.
  - apply in_app_or in Hrow as [Hrow|[<-|[]]].
    + apply in_map_iff in Hrow as (week & <- & Hweek).
      apply in_map_iff in Hb as (d & <- & Hd).
      destruct (monthcalendar_cell _ _ _ _ _ Hcal Hweek Hd) as [->|Hr].
      * left. reflexivity.
      * unfold day_button. destruct (Z.eqb_spec d 0); [lia|].
        destruct (is_past today y m d) eqn:Hp; [left; reflexivity|].
        right. left. exists d. auto.
    + unfold nav_row in Hb. destruct Hb as [<-|[<-|[]]].
      * destruct (can_go_prev today y m); [|left; reflexivity].
        right. right. left. auto.
      * right. right. right. reflexivity.
Qed.


Lemma next_month_range m : 1 <= m <= 12 -> 1 <= next_month m <= 12.
Proof. unfold next_month. destruct (Z.ltb_spec m 12); lia. Qed.








Lemma nav_data_inj y1 m1 y2 m2 : nav_data y1 m1 = nav_data y2 m2 -> y1 = y2 /\ m1 = m2.
Proof.
  intros H. apply (f_equal (Py.split "_")) in H. rewrite !split_nav_token in H.
  injection H as Hy Hmm.
  apply (f_equal Py.int_of_str) in Hy, Hmm. rewrite !int_of_str_of_int in Hy, Hmm.
  split; congruence.
Qed.




End NavigationFacts.

(* ===================================================================== *)
(** ** The day cells of the calendar                                       *)
(* ===================================================================== *)

Section CalendarCells.

Import Bot.

Lemma digits_of_four f y acc :
  1000 <= y <= 9999 ->
  Py.digits_of (S (S (S (S f)))) y acc
  = String (Py.digit_char (y / 10 / 10 / 10 mod 10))
      (String (Py.digit_char (y / 10 / 10 mod 10))
         (String (Py.digit_char (y / 10 mod 10))
            (String (Py.digit_char (y mod 10)) acc))).
Proof.
  intros Hy.
  assert (H1 : 100 <= y / 10 < 1000)
    by (split; [apply Z.div_le_lower_bound|apply Z.div_lt_upper_bound]; lia).
  assert (H2 : 10 <= y / 10 / 10 < 100)
    by (split; [apply Z.div_le_lower_bound|apply Z.div_lt_upper_bound]; lia).
  assert (H3 : 1 <= y / 10 / 10 / 10 < 10)
    by (split; [apply Z.div_le_lower_bound|apply Z.div_lt_upper_bound]; lia).
  cbn [Py.digits_of].
  destruct (Z.ltb_spec y 10); [lia|].
  destruct (Z.ltb_spec (y / 10) 10); [lia|].
  destruct (Z.ltb_spec (y / 10 / 10) 10); [lia|].
  destruct (Z.ltb_spec (y / 10 / 10 / 10) 10); [reflexivity|lia].
Qed.

Lemma log2_year y : 1000 <= y -> 9 <= Z.log2 y.
Proof.
  intros Hy. change 9 with (Z.log2 512). apply Z.log2_le_mono. lia.
Qed.

(** The text of a day button reads back as the date of the button, for
    the years that [strptime] accepts. *)
Lemma strptime_of_date_str y m d :
  1000 <= y <= 9999 -> 1 <= m <= 12 -> 1 <= d <= Cal.days_in_month y m ->
  Cal.strptime (date_str y m d) = Some (Cal.mkdate y m d).
Proof.
  intros Hy Hm Hd.
  pose proof (days_in_month_le_31 y m) as H31.
  unfold date_str, Py.str_of_int.
  destruct (Z.ltb_spec y 0); [lia|].
  pose proof (log2_year y ltac:(lia)) as Hlog.
  destruct (Z.to_nat (Z.log2 y)) as [|[|[|f]]] eqn:Ef; try lia.
  rewrite (digits_of_four f y EmptyString Hy).
  rewrite ?append_cons, ?append_nil.
  assert (D0 : 0 <= y mod 10 < 10) by (apply Z.mod_pos_bound; lia).
  assert (D1 : 0 <= y / 10 mod 10 < 10) by (apply Z.mod_pos_bound; lia).
  assert (D2 : 0 <= y / 10 / 10 mod 10 < 10) by (apply Z.mod_pos_bound; lia).
  assert (D3 : 0 <= y / 10 / 10 / 10 mod 10 < 10) by (apply Z.mod_pos_bound; lia).
  cbn [Cal.strptime].
  rewrite !digit_char_is_digit, !digit_char_val by assumption.
  change (Ascii.eqb "-" "-") with true. cbn [andb].
  assert (HY : 1000 * (y / 10 / 10 / 10 mod 10) + 100 * (y / 10 / 10 mod 10)
               + 10 * (y / 10 mod 10) + y mod 10 = y).
  { pose proof (Z.div_mod y 10 ltac:(lia)).
    pose proof (Z.div_mod (y / 10) 10 ltac:(lia)).
    pose proof (Z.div_mod (y / 10 / 10) 10 ltac:(lia)).
    assert (y / 10 / 10 / 10 < 10).
    { apply Z.div_lt_upper_bound; [lia|]. apply Z.div_lt_upper_bound; [lia|].
      apply Z.div_lt_upper_bound; lia. }
    rewrite (Z.mod_small (y / 10 / 10 / 10) 10); [lia|].
    split; [|assumption]. repeat apply Z.div_pos; lia. }
  rewrite HY, strp_month_fmt by exact Hm.
  rewrite strp_day_fmt by lia.
  destruct (Z.leb_spec 1 y); [|lia].
  destruct (Z.leb_spec d (Cal.days_in_month y m)); [reflexivity|lia].
Qed.

(** C4. For every year, month (1..12) and today, [create_calendar] returns
    a grid of a header row, the week-day row, one row of buttons per week
    of [monthcalendar] and the navigation row; in it, every day of the
    month has a cell, a day cell carries the ignore action if and only if
    its date is strictly before today, and every other day cell carries
    the action "cal_<year>-<month>-<day>" of its own date, which (for a
    year of four digits) [strptime] reads back as that date: no enabled
    cell precedes today. *)
Theorem create_calendar_day_cells (today : Cal.date) (y m : Z) (sel : option Cal.date) :
  1 <= m <= 12 ->
  exists header cal rows,
    Cal.monthcalendar y m = Some cal /\
    create_calendar today y m sel
      = Some (header :: map ignore_button week_days :: rows ++ [nav_row today y m]) /\
    Forall2 (Forall2 (day_cell today y m)) cal rows /\
    (forall d, 1 <= d <= Cal.days_in_month y m -> exists week, In week cal /\ In d week) /\
    (forall d, 1000 <= y <= 9999 -> 1 <= d <= Cal.days_in_month y m ->
               Cal.strptime (date_str y m d) = Some (Cal.mkdate y m d)).
Proof.
  intros Hm.
  destruct (create_calendar_grid today y m sel Hm) as (name & cal & Hcal & Hmk).
  exists [ignore_button (name ++ " " ++ Py.str_of_int y)], cal,
    (map (map (day_button today y m sel)) cal).
  split; [exact Hcal|]. split; [exact Hmk|]. split; [|split].
  - apply Forall2_map_grid. intros d. apply day_button_cell.
  - intros d Hd. eapply monthcalendar_has_day; eauto.
  - intros d Hy Hd. apply strptime_of_date_str; assumption.
Qed.

End CalendarCells.

(* ===================================================================== *)
(** ** The conversation steps                                              *)
(* ===================================================================== *)

Section StepFacts.

Import Bot.

(** [<=] on dates is [<] or equality. *)
Lemma date_le_spec a b :
  Cal.date_le a b = true <-> Cal.date_lt a b = true \/ a = b.
Proof.
  destruct a as [ya ma da], b as [yb mb db]. unfold Cal.date_le, Cal.date_lt. simpl.
  split.
  - intros H.
    destruct (Z.ltb_spec ya yb); [left; reflexivity|].
    destruct (Z.eqb_spec ya yb); simpl; [|exfalso; revert H; bool_cases].
    destruct (Z.ltb_spec ma mb); [left; reflexivity|].
    destruct (Z.eqb_spec ma mb); simpl; [|exfalso; revert H; bool_cases].
    destruct (Z.ltb_spec da db); [left; reflexivity|].
    right. f_equal; [assumption..|]. revert H. bool_cases.
  - intros [H|[= -> -> ->]]; [revert H|]; bool_cases.
Qed.

(** C1. In the check-out step (a check-in date [ci] is stored), a date
    selection whose date is at or before [ci] is refused: an alert is
    shown, the user data are unchanged and the conversation stays in
    SELECT_CHECKOUT; a date strictly after [ci] is stored as the check-out
    date, the check-in date stays, and the conversation moves to GUESTS. *)
Theorem checkout_selection (today : Cal.date) (data ds : string) (rest : list string)
    (sel ci : Cal.date) (u : user_data) :
  Py.split "_" data = "cal" :: ds :: rest ->
  Cal.strptime ds = Some sel ->
  ud_checkin_date u = Some ci ->
  let r := handle_calendar today data u in
  (Cal.date_le sel ci = true ->
     r_out r = [Answer None false; Answer (Some "Please select a date after check-in") true]
     /\ r_ud r = u
     /\ next_state SELECT_CHECKOUT (r_ret r) = SELECT_CHECKOUT)
  /\ (Cal.date_le sel ci = false ->
        r_ud r = set_dates (Cal.strftime ci ++ " to " ++ Cal.strftime sel)
                           (set_checkout_date sel u)
        /\ ud_checkout_date (r_ud r) = Some sel
        /\ ud_checkin_date (r_ud r) = Some ci
        /\ next_state SELECT_CHECKOUT (r_ret r) = GUESTS).
Proof.
  intros Hsplit Hparse Hci r. subst r. unfold handle_calendar.
  destruct (String.eqb data "ignore") eqn:E.
  { apply String.eqb_eq in E. subst data. discriminate Hsplit. }
  rewrite Hsplit.
  change (String.eqb "cal" "nav") with false.
  change (String.eqb "cal" "cal") with true. cbv iota.
  rewrite Hparse, Hci.
  split; intros Hle; rewrite Hle; simpl.
  - auto.
  - repeat split. exact Hci.
Qed.



(** C9. In the amenities step, with a set [s] selected, a toggle event for
    the key [k] leaves a set that differs from [s] in the membership of [k]
    and of no other key, and stays in AMENITIES; the same event once more
    gives back the user data as they were: the toggle is its own inverse. *)
Theorem amenity_toggle_involutive (data x k y : string) (s : gset string) (u : user_data) :
  Py.split "_" data = [x; k; y] ->
  ud_selected_amenities u = Some (AsSet s) ->
  let r1 := amenity_callback data u in
  let r2 := amenity_callback data (r_ud r1) in
  (exists s1, ud_selected_amenities (r_ud r1) = Some (AsSet s1)
              /\ (k ∈ s1 <-> k ∉ s)
              /\ (forall j, j <> k -> (j ∈ s1 <-> j ∈ s)))
  /\ r_ret r1 = Return (Some AMENITIES)
  /\ r_ud r2 = u
  /\ r_ret r2 = Return (Some AMENITIES).
Proof.
  intros Hsplit Hsel r1 r2. subst r1 r2. unfold amenity_callback.
  rewrite Hsel.
  destruct (String.eqb data "amenities_done") eqn:E.
  { apply String.eqb_eq in E. subst data. discriminate Hsplit. }
  rewrite Hsplit. simpl. rewrite ?E, ?Hsplit. simpl.
  split; [|split; [reflexivity|split; [|reflexivity]]].
  - eexists. split; [reflexivity|].
    destruct (bool_decide (k ∈ s)) eqn:Hk;
      [apply bool_decide_eq_true in Hk|apply bool_decide_eq_false in Hk].
    + split; [|intros j Hj]; rewrite elem_of_difference, elem_of_singleton; tauto.
    + split; [|intros j Hj]; rewrite elem_of_union, elem_of_singleton; tauto.
  - destruct u as [lo ci co da cs gu sa li]. simpl in *. subst sa.
    unfold set_selected_amenities. simpl. do 3 f_equal.
    destruct (bool_decide (k ∈ s)) eqn:Hk;
      [apply bool_decide_eq_true in Hk|apply bool_decide_eq_false in Hk].
    + rewrite bool_decide_eq_false_2
        by (rewrite elem_of_difference, elem_of_singleton; tauto).
      apply set_eq. intros j.
      rewrite elem_of_union, elem_of_difference, elem_of_singleton.
      destruct (decide (j = k)) as [->|]; tauto.
    + rewrite bool_decide_eq_true_2
        by (rewrite elem_of_union, elem_of_singleton; tauto).
      apply set_eq. intros j.
      rewrite elem_of_difference, elem_of_union, elem_of_singleton.
      destruct (decide (j = k)) as [->|]; tauto.
Qed.

End StepFacts.

(* ===================================================================== *)
(** ** The feedback ledger                                                 *)
(* ===================================================================== *)

Section FeedbackFacts.

Import Bot.

(** C7. A feedback event whose listing id has no entry in the user data is
    answered by the message that the listing was not found; the database
    (users and feedback rows) and the recommendation model are left as
    they were. *)
Theorem feedback_unknown_listing (uid : Z) (data x id action : string) (rest : list string)
    (u : user_data) (d : Database.db) (model : list (Database.feedback_data * bool)) :
  Py.split "_" data = x :: id :: action :: rest ->
  ud_listings u !! ("listing_" ++ id) = None ->
  handle_listing_feedback uid data u d model
  = mkfeedback_result d model
      [Answer None false; EditMarkup None; Reply listing_missing_text None].
Proof.
  intros Hsplit Hmiss. unfold handle_listing_feedback. rewrite Hsplit, Hmiss. reflexivity.
Qed.



End FeedbackFacts.

(* ===================================================================== *)
(** ** The listings search                                                 *)
(* ===================================================================== *)

Section ScraperFacts.

Import Scraper.

Lemma insert_by_price_perm x l : Permutation (x :: l) (insert_by_price x l).
Proof.
  induction l as [|y r IH]; simpl; [reflexivity|].
  destruct (price x <=? price y)%Z; [reflexivity|].
  rewrite perm_swap. apply perm_skip. exact IH.
Qed.

Lemma sort_by_price_perm l : Permutation l (sort_by_price l).
Proof.
  induction l as [|x l IH]; simpl; [reflexivity|].
  rewrite <- insert_by_price_perm. apply perm_skip. exact IH.
Qed.

Lemma insert_by_price_sorted x l :
  StronglySorted by_price l -> StronglySorted by_price (insert_by_price x l).
Proof.
  induction l as [|y r IH]; simpl; intros Hs.
  - constructor; constructor.
  - inversion Hs as [|? ? Hr Hy]; subst.
    destruct (Z.leb_spec (price x) (price y)) as [Hle|Hgt].
    + constructor; [exact Hs|]. constructor; [exact Hle|].
      eapply List.Forall_impl; [|exact Hy]. unfold by_price. intros; lia.
    + constructor; [apply IH; exact Hr|].
      eapply Permutation_Forall; [apply insert_by_price_perm|].
      constructor; [unfold by_price; lia|exact Hy].
Qed.

Lemma sort_by_price_sorted l : StronglySorted by_price (sort_by_price l).
Proof.
  induction l as [|x l IH]; simpl; [constructor|].
  apply insert_by_price_sorted. exact IH.
Qed.

Lemma sorted_app_inv (l1 l2 : list listing) :
  StronglySorted by_price (l1 ++ l2) ->
  StronglySorted by_price l1
  /\ forall a b, In a l1 -> In b l2 -> (price a <= price b)%Z.
Proof.
  induction l1 as [|x l1 IH]; simpl; intros Hs.
  - split; [constructor|]. intros a b [].
  - inversion Hs as [|? ? Hr Hx]; subst.
    destruct (IH Hr) as [Hs1 Hcross].
    apply List.Forall_app in Hx as [Hx1 Hx2].
    split; [constructor; assumption|].
    intros a b [<-|Ha] Hb; [|auto].
    rewrite List.Forall_forall in Hx2. apply Hx2. exact Hb.
Qed.

(** The five kept are the head of the sorted list: sorted, as many as
    there are up to five, and none dearer than any listing left out. *)
Lemma top5_spec (ls : list listing) :
  length (top5 ls) = Nat.min 5 (length ls)
  /\ StronglySorted by_price (top5 ls)
  /\ Permutation ls (top5 ls ++ skipn 5 (sort_by_price ls))
  /\ (forall a b, In a (top5 ls) -> In b (skipn 5 (sort_by_price ls)) ->
                  (price a <= price b)%Z).
Proof.
  unfold top5.
  pose proof (sort_by_price_sorted ls) as Hs.
  pose proof (sort_by_price_perm ls) as Hp.
  rewrite <- (firstn_skipn 5 (sort_by_price ls)) in Hs.
  apply sorted_app_inv in Hs as [Hs1 Hcross].
  split; [|split; [exact Hs1|split; [|exact Hcross]]].
  - rewrite length_firstn, <- (Permutation_length Hp). reflexivity.
  - rewrite firstn_skipn. exact Hp.
Qed.



(** Whatever the provider does, at most five listings come back, in
    ascending order of price. *)
Lemma search_listings_bounds E loc ci co g lo hi am :
  (length (search_listings E loc ci co g lo hi am) <= 5)%nat
  /\ StronglySorted by_price (search_listings E loc ci co g lo hi am).
Proof.
  assert (Hnil : (length (@nil listing) <= 5)%nat /\ StronglySorted by_price []).
  { split; [simpl; lia|constructor]. }
  unfold search_listings.
  destruct (http_get E _) as [|status body]; [exact Hnil|].
  destruct (negb (status =? 200)%Z); [exact Hnil|].
  destruct body as [[| | | | | |data]|]; try exact Hnil.
  destruct (negb (truthy _)); [exact Hnil|].
  destruct (result_items _) as [items|]; [|exact Hnil].
  destruct (top5_spec (parse_items E loc items)) as (Hlen & Hs & _).
  split; [rewrite Hlen; lia|exact Hs].
Qed.











(** C3 as the code has it. When the listings provider fails (the request
    raises, as on a time-out, or the status is not 200, or the body does
    not decode, or decodes to something that is no dict),
    [search_listings] returns the empty list, and
    [price_range], given a valid price text and complete criteria, reports
    that no properties were found and ends the conversation, the user data
    unchanged: to the user a failed search and a search without results
    are the same. *)
Theorem search_failure_reads_as_no_results (E : env) (text : string) (lo hi : Z)
    (u : Bot.user_data) (loc : string) (ci co : Cal.date) (g : Z) :
  Bot.parse_price_range text = Some (lo, hi) ->
  Bot.ud_location u = Some loc -> Bot.ud_checkin_date u = Some ci ->
  Bot.ud_checkout_date u = Some co -> Bot.ud_guests u = Some g ->
  let params := search_params loc (Cal.strftime ci) (Cal.strftime co) g (Some lo) (Some hi) in
  (http_get E params = HttpRaises
   \/ exists status body,
        http_get E params = HttpResponse status body
        /\ (status <> 200 \/ body = None
            \/ exists v, body = Some v /\ forall kv, v <> JObj kv)) ->
  (forall am, search_listings E loc (Cal.strftime ci) (Cal.strftime co) g
                (Some lo) (Some hi) am = [])
  /\ Bot.price_range E text u
     = Bot.mkresult (Bot.Return (Some Bot.END)) u
         [Bot.Reply "🔍 Searching for properties..." None;
          Bot.EditSearchMessage Bot.no_results_text].
Proof.
  intros Hparse Hloc Hci Hco Hg params Hfail.
  assert (Hnil : forall am, search_listings E loc (Cal.strftime ci) (Cal.strftime co) g
                              (Some lo) (Some hi) am = []).
  { intros am. unfold search_listings. fold params.
    destruct Hfail as [-> | (status & body & -> & [Hs | [-> | (v & -> & Hv)]])];
      [reflexivity| | |].
    - destruct (Z.eqb_spec status 200); [contradiction|reflexivity].
    - destruct (negb (status =? 200)%Z); reflexivity.
    - destruct (negb (status =? 200)%Z); [reflexivity|].
      destruct v as [| | | | | |kv]; try reflexivity.
      exfalso. exact (Hv kv eq_refl). }
  split; [exact Hnil|].
  unfold Bot.price_range. rewrite Hparse, Hloc, Hci, Hco, Hg, Hnil. reflexivity.
Qed.

End ScraperFacts.

(* ===================================================================== *)
(** ** Navigation and the months on display                              *)
(* ===================================================================== *)

Section NavigationInvariant.

Import Bot.


End NavigationInvariant.

(* ===================================================================== *)
(** ** Worked examples                                                     *)
(* ===================================================================== *)

Example split_examples :
  Py.split "_" "nav_2024_7" = ["nav"; "2024"; "7"]
  /\ Py.split "_" "feedback_-42_like" = ["feedback"; "-42"; "like"]
  /\ Py.split "-" "100-200" = ["100"; "200"]
  /\ Py.split "-" "-200" = [""; "200"]
  /\ Py.split "_" "" = [""].
Proof. repeat split; reflexivity. Qed.

Example int_of_str_examples :
  Py.int_of_str " +1_000 " = Some 1000 /\ Py.int_of_str "1__0" = None
  /\ Py.int_of_str "-12" = Some (-12) /\ Py.int_of_str "" = None
  /\ Py.int_of_str "abc" = None /\ Py.int_of_str "007" = Some 7
  /\ Py.int_of_str "1.5" = None.
Proof. repeat split; reflexivity. Qed.

Example str_of_int_examples :
  Py.str_of_int (-5) = "-5" /\ Py.str_of_int 0 = "0" /\ Py.str_of_int 1024 = "1024"
  /\ Py.fmt_02d 7 = "07" /\ Py.fmt_02d 12 = "12" /\ Py.fmt_04d 2024 = "2024"
  /\ Py.strip "  171 " = "171".
Proof. repeat split; reflexivity. Qed.

Example float_examples :
  Py.float_of_str "0.1" = Some (S754_finite false 7205759403792794 (-56))
  /\ Py.float_of_str "1.5" = Some Ex.f1_5
  /\ Py.float_of_str "2" = Some Ex.f2_0
  /\ Py.float_of_str "4.5" = Some Ex.f4_5
  /\ option_map Py.int_of_float (Py.float_of_str "170.99999999999999999") = Some (Some 171)
  /\ option_map Py.int_of_float (Py.float_of_str " 171 ") = Some (Some 171)
  /\ option_map Py.int_of_float (Py.float_of_str "1_7.9e1") = Some (Some 179)
  /\ option_map Py.int_of_float (Py.float_of_str "12.75") = Some (Some 12)
  /\ Py.float_of_str "1,234" = None /\ Py.float_of_str "." = None
  /\ Py.float_of_str "1e" = None /\ Py.float_of_str "1._5" = None
  /\ Py.float_of_str "1e400" = Some (S754_infinity false)
  /\ Py.float_of_str "-Inf" = Some (S754_infinity true)
  /\ Py.float_of_str "4.9e-324" = Some (S754_finite false 1 (-1074))
  /\ Py.float_of_str "1.7976931348623157e308" = Some (S754_finite false 9007199254740991 971)
  /\ Py.float_of_int (2 ^ 53 + 1) = Some (S754_finite false 4503599627370496 1)
  /\ Py.int_of_float Ex.f1_5 = Some 1.
Proof. repeat split; vm_compute; reflexivity. Qed.

Example monthcalendar_examples :
  Cal.monthcalendar 2024 2 =
    Some [[0;0;0;1;2;3;4]; [5;6;7;8;9;10;11]; [12;13;14;15;16;17;18];
          [19;20;21;22;23;24;25]; [26;27;28;29;0;0;0]]
  /\ Cal.monthcalendar 2026 11 =
    Some [[0;0;0;0;0;0;1]; [2;3;4;5;6;7;8]; [9;10;11;12;13;14;15];
          [16;17;18;19;20;21;22]; [23;24;25;26;27;28;29]; [30;0;0;0;0;0;0]]
  /\ Cal.monthcalendar 2021 2 =
    Some [[1;2;3;4;5;6;7]; [8;9;10;11;12;13;14]; [15;16;17;18;19;20;21];
          [22;23;24;25;26;27;28]]
  /\ Cal.monthcalendar 2024 13 = None.
Proof. repeat split; reflexivity. Qed.

Example strptime_examples :
  Cal.strptime "2024-02-29" = Some (Cal.mkdate 2024 2 29)
  /\ Cal.strptime "2023-02-29" = None
  /\ Cal.strptime "2024-1-5" = Some (Cal.mkdate 2024 1 5)
  /\ Cal.strptime "2024-13-05" = None /\ Cal.strptime "999-01-05" = None
  /\ Cal.strptime "2024-01-32" = None /\ Cal.strptime "2024-01-310" = None
  /\ Cal.strptime "2024-1--5" = None /\ Cal.strptime "0000-01-01" = None
  /\ Cal.strptime "2024-10- 5" = Some (Cal.mkdate 2024 10 5)
  /\ Cal.strftime (Cal.mkdate 2024 1 5) = "2024-01-05"
  /\ Cal.next_day (Cal.mkdate 2024 12 31) = Some (Cal.mkdate 2025 1 1)
  /\ Cal.next_day (Cal.mkdate 2024 2 28) = Some (Cal.mkdate 2024 2 29).
Proof. repeat split; reflexivity. Qed.

Example parse_price_examples :
  Scraper._parse_price
    (Some (JObj [("priceItems", JArr [JObj [("title", JStr "$171 x 3 nights")]])]))
  = Some 171
  /\ Scraper._parse_price
       (Some (JObj [("priceItems", JArr [JObj [("title", JStr "$1,234 x 3 nights")]])]))
     = None
  /\ Scraper._parse_price (Some (JObj [("total", JInt 171)])) = None
  /\ Scraper._parse_price None = None.
Proof. repeat split; vm_compute; reflexivity. Qed.

(** The calendar of January 2024 seen on the 15th: the 14th is disabled,
    the 15th carries its date, and there is no way back to December. *)
Example create_calendar_example :
  exists header weekdays w1 w2 d15 rest3 w4 w5,
    Bot.create_calendar Ex.today 2024 1 None
    = Some [header; weekdays; w1; w2;
            Bot.mkbutton "15" "cal_2024-01-15" :: rest3; w4; w5;
            [Bot.ignore_button " "; Bot.mkbutton ">>" "nav_2024_2"]]
    /\ nth_error w2 6 = Some d15 /\ d15 = Bot.mkbutton "✗" "ignore".
Proof. vm_compute. repeat eexists. Qed.

(** The date steps: the location, then 10 June as check-in (the calendar
    of June is put up), then 15 June as check-out. *)
Example date_steps_example :
  let s0 := Bot.start Ex.today "Paris" Bot.empty_user_data in
  let r1 := Bot.handle_calendar Ex.today "cal_2024-06-10" (Bot.data s0) in
  let r2 := Bot.handle_calendar Ex.today "cal_2024-06-15" (Bot.r_ud r1) in
  Bot.conv s0 = Bot.SELECT_CHECKIN
  /\ Bot.calendar s0 = Bot.create_calendar Ex.today 2024 1 None
  /\ Bot.r_ret r1 = Bot.Return (Some Bot.SELECT_CHECKOUT)
  /\ Bot.shown (Bot.calendar s0) (Bot.r_out r1) = Bot.create_calendar Ex.today 2024 6 None
  /\ Bot.r_ret r2 = Bot.Return (Some Bot.GUESTS)
  /\ Bot.ud_checkin_date (Bot.r_ud r2) = Some (Cal.mkdate 2024 6 10)
  /\ Bot.ud_checkout_date (Bot.r_ud r2) = Some (Cal.mkdate 2024 6 15)
  /\ Bot.ud_dates (Bot.r_ud r2) = Some "2024-06-10 to 2024-06-15".
Proof. vm_compute. repeat split. Qed.

(** The guests step: 0, 17 and "abc" are refused, 1 and 16 taken. *)
Example guests_example :
  Bot.r_ret (Bot.guests "0" Ex.checked_in) = Bot.Return (Some Bot.GUESTS)
  /\ Bot.r_ret (Bot.guests "17" Ex.checked_in) = Bot.Return (Some Bot.GUESTS)
  /\ Bot.r_ret (Bot.guests "abc" Ex.checked_in) = Bot.Return (Some Bot.GUESTS)
  /\ Bot.r_ud (Bot.guests "17" Ex.checked_in) = Ex.checked_in
  /\ Bot.r_ret (Bot.guests "1" Ex.checked_in) = Bot.Return (Some Bot.AMENITIES)
  /\ Bot.r_ret (Bot.guests "16" Ex.checked_in) = Bot.Return (Some Bot.AMENITIES)
  /\ Bot.ud_guests (Bot.r_ud (Bot.guests "16" Ex.checked_in)) = Some 16.
Proof. vm_compute. repeat split. Qed.

(** Seven parseable results: the five cheapest come back, cheapest first,
    and each is shown with its buttons. *)
Example seven_results_example :
  let E := example_env (Ex.http_results Ex.seven_items) in
  map Scraper.price
      (Scraper.search_listings E "Paris" "2024-06-10" "2024-06-15" 2 (Some 50) (Some 500) [])
  = [90; 120; 175; 200; 250]
  /\ Bot.next_state Bot.PRICE_RANGE (Bot.r_ret (Bot.price_range E "50-500" Ex.paris)) = Bot.END
  /\ length (Bot.r_out (Bot.price_range E "50-500" Ex.paris)) = 8%nat.
Proof. vm_compute. repeat split. Qed.

(* ===================================================================== *)
(** ** The theorems at concrete inputs                                   *)
(* ===================================================================== *)

(** C1 at the check-in date itself (refused) and two days later (taken). *)
Lemma checkout_selection_witness :
  Bot.r_ud (Bot.handle_calendar Ex.today "cal_2024-06-10" Ex.checked_in) = Ex.checked_in
  /\ Bot.next_state Bot.SELECT_CHECKOUT
       (Bot.r_ret (Bot.handle_calendar Ex.today "cal_2024-06-10" Ex.checked_in))
     = Bot.SELECT_CHECKOUT
  /\ Bot.ud_checkout_date (Bot.r_ud (Bot.handle_calendar Ex.today "cal_2024-06-12" Ex.checked_in))
     = Some (Cal.mkdate 2024 6 12).
Proof.
  destruct (checkout_selection Ex.today "cal_2024-06-10" "2024-06-10" []
              (Cal.mkdate 2024 6 10) (Cal.mkdate 2024 6 10) Ex.checked_in
              eq_refl eq_refl eq_refl) as [Hrefused _].
  destruct (checkout_selection Ex.today "cal_2024-06-12" "2024-06-12" []
              (Cal.mkdate 2024 6 12) (Cal.mkdate 2024 6 10) Ex.checked_in
              eq_refl eq_refl eq_refl) as [_ Htaken].
  destruct (Hrefused eq_refl) as (_ & Hu & Hs).
  destruct (Htaken eq_refl) as (_ & Hc & _).
  exact (conj Hu (conj Hs Hc)).
Defined.



(** C3 as the code has it, at a provider that answers 500. *)
Lemma search_failure_witness :
  Bot.price_range (example_env Ex.http_500) "100-300" Ex.paris
  = Bot.mkresult (Bot.Return (Some Bot.END)) Ex.paris
      [Bot.Reply "🔍 Searching for properties..." None;
       Bot.EditSearchMessage Bot.no_results_text].
Proof.
  destruct (search_failure_reads_as_no_results (example_env Ex.http_500) "100-300" 100 300
              Ex.paris "Paris" (Cal.mkdate 2024 6 10) (Cal.mkdate 2024 6 15) 2
              eq_refl eq_refl eq_refl eq_refl eq_refl
              (or_intror (ex_intro _ 500 (ex_intro _ None
                 (conj eq_refl (or_intror (or_introl eq_refl))))))) as [_ H].
  exact H.
Defined.

(** C3 as stated fails: with a provider that answers 500, or whose request
    raises, the valid price text "100-300" ends the conversation instead
    of leaving it in PRICE_RANGE, and what the user is told is what is
    told when a search finds nothing. *)
Lemma failed_search_ends_conversation :
  Bot.next_state Bot.PRICE_RANGE
    (Bot.r_ret (Bot.price_range (example_env Ex.http_500) "100-300" Ex.paris)) = Bot.END
  /\ Bot.next_state Bot.PRICE_RANGE
       (Bot.r_ret (Bot.price_range (example_env Ex.http_raises) "100-300" Ex.paris)) = Bot.END
  /\ Bot.END <> Bot.PRICE_RANGE
  /\ Bot.price_range (example_env Ex.http_500) "100-300" Ex.paris
     = Bot.price_range (example_env (Ex.http_results [])) "100-300" Ex.paris
  /\ Bot.price_range (example_env Ex.http_raises) "100-300" Ex.paris
     = Bot.price_range (example_env (Ex.http_results [])) "100-300" Ex.paris.
Proof.
  split; [vm_compute; reflexivity|]. split; [vm_compute; reflexivity|].
  split; [discriminate|]. split; vm_compute; reflexivity.
Qed.

(** C4 at January 2024 seen on the 15th. *)
Lemma create_calendar_day_cells_witness :
  exists header cal rows,
    Cal.monthcalendar 2024 1 = Some cal /\
    Bot.create_calendar Ex.today 2024 1 None
      = Some (header :: map Bot.ignore_button Bot.week_days :: rows
              ++ [Bot.nav_row Ex.today 2024 1]) /\
    Forall2 (Forall2 (Bot.day_cell Ex.today 2024 1)) cal rows /\
    (forall d, 1 <= d <= Cal.days_in_month 2024 1 -> exists week, In week cal /\ In d week) /\
    (forall d, 1000 <= 2024 <= 9999 -> 1 <= d <= Cal.days_in_month 2024 1 ->
               Cal.strptime (Bot.date_str 2024 1 d) = Some (Cal.mkdate 2024 1 d)).
Proof.
  apply (create_calendar_day_cells Ex.today 2024 1 None). lia.
Defined.



(** C7 at the id 99, which was never shown. *)
Lemma feedback_unknown_listing_witness :
  Bot.handle_listing_feedback 7 "feedback_99_like" Ex.shown_loft Ex.no_rows []
  = Bot.mkfeedback_result Ex.no_rows []
      [Bot.Answer None false; Bot.EditMarkup None; Bot.Reply Bot.listing_missing_text None].
Proof.
  apply (feedback_unknown_listing 7 "feedback_99_like" "feedback" "99" "like" []).
  - reflexivity.
  - vm_compute. reflexivity.
Defined.



(** C9 at the key "wifi", selected before. *)
Lemma amenity_toggle_witness :
  Bot.r_ud (Bot.amenity_callback "amenity_wifi_toggle"
              (Bot.r_ud (Bot.amenity_callback "amenity_wifi_toggle" Ex.choosing)))
  = Ex.choosing.
Proof.
  destruct (amenity_toggle_involutive "amenity_wifi_toggle" "amenity" "wifi" "toggle"
              {["wifi"]} Ex.choosing eq_refl eq_refl) as (_ & _ & H & _).
  exact H.
Defined.


(* ===================================================================== *)
(** ** Further properties of the date steps                                *)
(* ===================================================================== *)

Section DateStepProperties.

Import Bot.

Lemma digit_in_bounds lo hi a :
  Cal.digit_in lo hi a = true -> lo <= Py.digit_val a <= hi.
Proof.
  unfold Cal.digit_in. intros H.
  apply andb_true_iff in H as [H Hhi]. apply andb_true_iff in H as [_ Hlo].
  apply Z.leb_le in Hlo, Hhi. lia.
Qed.

Lemma strp_month_range s m r : Cal.strp_month s = Some (m, r) -> 1 <= m <= 12.
Proof.
  unfold Cal.strp_month.
  destruct s as [|a [|b t]]; try discriminate.
  destruct ((Ascii.eqb a "1" && Cal.digit_in 0 2 b)
            || (Ascii.eqb a "0" && Cal.digit_in 1 9 b))%bool eqn:E.
  - destruct t as [|c t']; [discriminate|].
    destruct (Ascii.eqb c "-"); [|discriminate].
    intros [= <- _].
    apply orb_true_iff in E as [E|E]; apply andb_true_iff in E as [Ea Eb];
      apply Ascii.eqb_eq in Ea; subst a; apply digit_in_bounds in Eb;
      change (Py.digit_val "1") with 1; change (Py.digit_val "0") with 0; lia.
  - destruct (Cal.digit_in 1 9 a && Ascii.eqb b "-")%bool eqn:E'; [|discriminate].
    intros [= <- _]. apply andb_true_iff in E' as [Ea _].
    apply digit_in_bounds in Ea. lia.
Qed.

(** A date that [strptime] returns has a month of the calendar. *)
Lemma strptime_month s d : Cal.strptime s = Some d -> 1 <= Cal.month d <= 12.
Proof.
  unfold Cal.strptime.
  destruct s as [|y1 [|y2 [|y3 [|y4 [|c r]]]]]; try discriminate.
  destruct (_ && _)%bool; [|discriminate].
  destruct (Cal.strp_month r) as [[m r']|] eqn:Hm; [|discriminate].
  destruct (Cal.strp_day r') as [dd|]; [|discriminate].
  destruct (_ && _)%bool; [|discriminate].
  intros [= <-]. simpl. eapply strp_month_range; eauto.
Qed.

Lemma next_day_month d nd :
  1 <= Cal.month d <= 12 -> Cal.next_day d = Some nd -> 1 <= Cal.month nd <= 12.
Proof.
  unfold Cal.next_day. intros Hm.
  destruct (Cal.day d <? Cal.days_in_month (Cal.year d) (Cal.month d))%Z;
    [intros [= <-]; exact Hm|].
  destruct (Z.ltb_spec (Cal.month d) 12); [intros [= <-]; simpl; lia|].
  destruct (Cal.year d <? 9999)%Z; [intros [= <-]; simpl; lia|discriminate].
Qed.

(** X1. In the check-in step (no check-in date stored), the selection of
    any date that exists, past or future, is taken as the check-in date:
    it is stored, the calendar of the month of the day after replaces the
    one on display, and the conversation moves to SELECT_CHECKOUT; nothing
    else of the user data changes. *)
Theorem checkin_selection (today : Cal.date) (data ds : string) (rest : list string)
    (sel nd : Cal.date) (u : user_data) :
  Py.split "_" data = "cal" :: ds :: rest ->
  Cal.strptime ds = Some sel ->
  ud_checkin_date u = None ->
  Cal.next_day sel = Some nd ->
  let r := handle_calendar today data u in
  exists mk,
    create_calendar today (Cal.year nd) (Cal.month nd) None = Some mk
    /\ r_ret r = Return (Some SELECT_CHECKOUT)
    /\ r_ud r = set_calendar_state SELECT_CHECKOUT (set_checkin_date sel u)
    /\ (forall c, shown c (r_out r) = Some mk).
Proof.
  intros Hsplit Hparse Hci Hnd r. subst r.
  pose proof (next_day_month _ _ (strptime_month _ _ Hparse) Hnd) as Hm.
  destruct (create_calendar_some today (Cal.year nd) (Cal.month nd) None Hm) as (mk & Hmk).
  exists mk. split; [exact Hmk|].
  unfold handle_calendar.
  destruct (String.eqb data "ignore") eqn:E.
  { apply String.eqb_eq in E. subst data. discriminate Hsplit. }
  rewrite Hsplit.
  change (String.eqb "cal" "nav") with false.
  change (String.eqb "cal" "cal") with true. cbv iota.
  rewrite Hparse, Hci, Hnd, Hmk. simpl. auto.
Qed.

(** X2. Whatever the callback data, [handle_calendar] never replaces or
    removes a check-in date that is stored, and never touches the
    location, the guests, the amenities or the listings. *)
Theorem handle_calendar_keeps_checkin (today : Cal.date) (data : string) (u : user_data)
    (ci : Cal.date) :
  ud_checkin_date u = Some ci ->
  let u' := r_ud (handle_calendar today data u) in
  ud_checkin_date u' = Some ci
  /\ ud_location u' = ud_location u
  /\ ud_guests u' = ud_guests u
  /\ ud_selected_amenities u' = ud_selected_amenities u
  /\ ud_listings u' = ud_listings u.
Proof.
  intros Hci. unfold handle_calendar.
  destruct (String.eqb data "ignore"); [simpl; auto|].
  destruct (Py.split "_" data) as [|action args]; [simpl; auto|].
  destruct (String.eqb action "nav").
  { destruct args as [|a1 [|a2 args]]; try (simpl; auto; fail).
    destruct (Py.int_of_str a1), (Py.int_of_str a2); try (simpl; auto; fail).
    destruct (create_calendar today z z0 None); simpl; auto. }
  destruct (String.eqb action "cal"); [|simpl; auto].
  destruct args as [|a1 args]; [simpl; auto|].
  destruct (Cal.strptime a1) as [sel|]; [|simpl; auto].
  rewrite Hci. destruct (Cal.date_le sel ci); simpl; auto.
Qed.


End DateStepProperties.

Section SearchStepProperties.

Import Bot.

Lemma show_listings_same_criteria E ls : forall u out,
  same_criteria u (snd (fst (show_listings E ls u out)))
  /\ dom (ud_listings u) ⊆ dom (ud_listings (snd (fst (show_listings E ls u out)))).
Proof.
  induction ls as [|l ls IH]; intros u out; simpl.
  - split; [repeat split|reflexivity].
  - set (u1 := set_listing ("listing_" ++ listing_id E l) l u).
    assert (H1 : same_criteria u u1 /\ dom (ud_listings u) ⊆ dom (ud_listings u1)).
    { split; [repeat split|]. unfold u1, set_listing. simpl.
      rewrite dom_insert. apply union_subseteq_r. }
    destruct (listing_message E l) as [msg|]; [|exact H1].
    destruct (IH u1 (out ++ [Reply msg (Some (feedback_keyboard (listing_id E l)))])%list)
      as [Hs Hd].
    destruct H1 as [Hs1 Hd1]. split; [|etransitivity; eassumption].
    unfold same_criteria in *.
    destruct Hs as (A1 & A2 & A3 & A4 & A5 & A6 & A7).
    destruct Hs1 as (B1 & B2 & B3 & B4 & B5 & B6 & B7).
    repeat split; congruence.
Qed.

Lemma price_range_same_criteria E text u :
  same_criteria u (r_ud (price_range E text u))
  /\ dom (ud_listings u) ⊆ dom (ud_listings (r_ud (price_range E text u))).
Proof.
  assert (Hrefl : same_criteria u u /\ dom (ud_listings u) ⊆ dom (ud_listings u))
    by (split; [repeat split|reflexivity]).
  unfold price_range.
  destruct (parse_price_range text) as [[lo hi]|]; [|exact Hrefl].
  destruct (ud_location u) as [loc|] eqn:Hloc; [|exact Hrefl].
  destruct (ud_checkin_date u) as [ci|] eqn:Hci; [|exact Hrefl].
  destruct (ud_checkout_date u) as [co|] eqn:Hco; [|exact Hrefl].
  destruct (ud_guests u) as [g|] eqn:Hg; [|exact Hrefl].
  destruct (Scraper.search_listings _ _ _ _ _ _ _ _) as [|l ls]; [exact Hrefl|].
  match goal with
  | |- context [show_listings ?e ?lst ?v ?o] =>
      pose proof (show_listings_same_criteria e lst v o) as Hshow;
      destruct (show_listings e lst v o) as [[ok u1] out2]
  end.
  simpl in Hshow.
  destruct ok; [destruct (final_message _ _ _ _ _ _ _)|]; exact Hshow.
Qed.

(** X4. The price step changes nothing of the criteria in the user data,
    on any text and with any provider: it only adds the listings it shows,
    and never removes a listing stored before. *)
Theorem price_range_keeps_criteria (E : env) (text : string) (u : user_data) :
  same_criteria u (r_ud (price_range E text u))
  /\ (forall key, is_Some (ud_listings u !! key) ->
                  is_Some (ud_listings (r_ud (price_range E text u)) !! key)).
Proof.
  destruct (price_range_same_criteria E text u) as [Hs Hd]. split; [exact Hs|].
  intros key Hkey. apply elem_of_dom. apply Hd. apply elem_of_dom. exact Hkey.
Qed.

(** X5. The user data are not cleared between searches. When a search has
    been completed with the check-in date [ci], the first date selected in
    the next search is not taken as its check-in date: [ci] stays, a date
    at or before [ci] is refused and moves the conversation from
    SELECT_CHECKIN to SELECT_CHECKOUT, a later date is stored as the
    check-out date and moves it to GUESTS. *)
Theorem stale_checkin_in_next_search (E : env) (today : Cal.date)
    (text msg data ds : string) (rest : list string) (sel ci : Cal.date) (u : user_data) :
  ud_checkin_date u = Some ci ->
  Py.split "_" data = "cal" :: ds :: rest ->
  Cal.strptime ds = Some sel ->
  let after_search := r_ud (price_range E text u) in
  let s := start today msg after_search in
  let r := handle_calendar today data (Bot.data s) in
  ud_checkin_date (Bot.data s) = Some ci
  /\ ud_checkin_date (r_ud r) = Some ci
  /\ (Cal.date_le sel ci = true ->
      next_state SELECT_CHECKIN (r_ret r) = SELECT_CHECKOUT /\ r_ud r = Bot.data s)
  /\ (Cal.date_le sel ci = false ->
      next_state SELECT_CHECKIN (r_ret r) = GUESTS
      /\ ud_checkout_date (r_ud r) = Some sel).
Proof.
  intros Hci Hsplit Hparse after_search s r.
  assert (Hs : ud_checkin_date (Bot.data s) = Some ci).
  { subst s after_search. unfold start, location.
    destruct (price_range_same_criteria E text u) as [(_ & H & _) _].
    destruct (create_calendar today (Cal.year today) (Cal.month today) None);
      simpl; congruence. }
  split; [exact Hs|].
  subst r. unfold handle_calendar.
  destruct (String.eqb data "ignore") eqn:Ei.
  { apply String.eqb_eq in Ei. subst data. discriminate Hsplit. }
  rewrite Hsplit.
  change (String.eqb "cal" "nav") with false.
  change (String.eqb "cal" "cal") with true. cbv iota.
  rewrite Hparse, Hs.
  destruct (Cal.date_le sel ci); simpl.
  - split; [exact Hs|]. split; [auto|discriminate].
  - split; [exact Hs|]. split; [discriminate|auto].
Qed.

(** X6. A price text that parses, with one of the criteria missing from
    the user data, is answered by the search notice and the
    something-went-wrong message; the conversation stays in PRICE_RANGE,
    the user data are unchanged, and the provider plays no part. *)
Theorem price_range_missing_criteria (E : env) (text : string) (range : Z * Z)
    (u : user_data) :
  parse_price_range text = Some range ->
  ud_location u = None \/ ud_checkin_date u = None
  \/ ud_checkout_date u = None \/ ud_guests u = None ->
  price_range E text u
  = mkresult (Return (Some PRICE_RANGE)) u
      [Reply "🔍 Searching for properties..." None;
       Reply ("Sorry, something went wrong. "
              ++ "Please try again with a valid price range (e.g., 100-200)") None].
Proof.
  intros Hparse Hmiss. unfold price_range. rewrite Hparse. destruct range as [lo hi].
  destruct Hmiss as [H|[H|[H|H]]]; rewrite H;
    repeat match goal with
           | |- context [match ?x with Some _ => _ | None => _ end] => destruct x
           end; reflexivity.
Qed.

End SearchStepProperties.

(* ===================================================================== *)
(** ** Further properties of the feedback path                             *)
(* ===================================================================== *)

Section FeedbackProperties.

Import Bot.

Lemma append_inv_head p a b : (p ++ a = p ++ b)%string -> a = b.
Proof.
  induction p as [|c p IH]; simpl; [auto|]. intros [= H]. auto.
Qed.

Lemma split_feedback_token id action :
  Py.contains "_" id = false -> Py.contains "_" action = false ->
  Py.split "_" ("feedback_" ++ id ++ "_" ++ action) = ["feedback"; id; action].
Proof.
  intros Hid Hact.
  change ("feedback_" ++ id ++ "_" ++ action)
    with ("feedback" ++ String "_" (id ++ String "_" action)).
  rewrite split_app by reflexivity. rewrite split_app by exact Hid.
  rewrite split_no_sep by exact Hact. reflexivity.
Qed.

Lemma find_app {A} (p : A -> bool) (l1 l2 : list A) :
  List.find p (l1 ++ l2)
  = match List.find p l1 with Some x => Some x | None => List.find p l2 end.
Proof.
  induction l1 as [|x l1 IH]; simpl; [reflexivity|].
  destruct (p x); [reflexivity|exact IH].
Qed.

(** The listings stored by a run of the display loop that was not stopped:
    each under its key, a later one in the place of an earlier one with
    the same key. *)
Lemma show_listings_stored E ls : forall u out u' out',
  show_listings E ls u out = (true, u', out') ->
  ud_listings u'
  = fold_left (fun m l => <["listing_" ++ listing_id E l := l]> m) ls (ud_listings u).
Proof.
  induction ls as [|x ls IH]; intros u out u' out'; simpl.
  - intros [= <- _]. reflexivity.
  - destruct (listing_message E x) as [msg|]; [|discriminate].
    intros H. apply IH in H. exact H.
Qed.

Lemma fold_insert_lookup E ls : forall (m : gmap string Scraper.listing) key,
  fold_left (fun m l => <["listing_" ++ listing_id E l := l]> m) ls m !! key
  = match List.find (fun l => String.eqb ("listing_" ++ listing_id E l) key) (rev ls) with
    | Some l => Some l
    | None => m !! key
    end.
Proof.
  induction ls as [|x ls IH]; intros m key; [reflexivity|].
  cbn [fold_left rev]. rewrite IH, find_app. cbn [List.find].
  destruct (List.find _ (rev ls)); [reflexivity|].
  destruct (String.eqb ("listing_" ++ listing_id E x) key) eqn:Heq.
  - apply String.eqb_eq in Heq. rewrite <- Heq. apply lookup_insert_eq.
  - apply String.eqb_neq in Heq. apply lookup_insert_ne. exact Heq.
Qed.

Lemma show_listings_lookup E ls u out u' out' l :
  show_listings E ls u out = (true, u', out') -> In l ls ->
  exists l', In l' ls /\ listing_id E l' = listing_id E l
             /\ ud_listings u' !! ("listing_" ++ listing_id E l) = Some l'.
Proof.
  intros Hrun Hin. rewrite (show_listings_stored _ _ _ _ _ _ Hrun), fold_insert_lookup.
  destruct (List.find _ (rev ls)) as [l'|] eqn:Hf.
  - apply find_some in Hf as [Hin' Heq]. apply String.eqb_eq in Heq.
    apply append_inv_head in Heq. exists l'.
    split; [apply in_rev; exact Hin'|]. split; [exact Heq|reflexivity].
  - exfalso. apply in_rev in Hin. apply (find_none _ _ Hf l) in Hin.
    rewrite String.eqb_refl in Hin. discriminate.
Qed.

(** What [price_range] leaves when it ends the conversation after a search
    that found something: the user data of a display loop that ran to its
    end. *)
Lemma price_range_end E text lo hi u loc ci co g :
  parse_price_range text = Some (lo, hi) ->
  ud_location u = Some loc -> ud_checkin_date u = Some ci ->
  ud_checkout_date u = Some co -> ud_guests u = Some g ->
  r_ret (price_range E text u) = Return (Some END) ->
  let ls := Scraper.search_listings E loc (Cal.strftime ci) (Cal.strftime co) g
              (Some lo) (Some hi) [] in
  ls = [] \/ exists out1 out2,
               show_listings E ls u out1 = (true, r_ud (price_range E text u), out2).
Proof.
  intros Hparse Hloc Hci Hco Hg. unfold price_range.
  rewrite Hparse, Hloc, Hci, Hco, Hg.
  change (Scraper.search_listings E loc (Cal.strftime ci) (Cal.strftime co) g
            (Some lo) (Some hi) _)
    with (Scraper.search_listings E loc (Cal.strftime ci) (Cal.strftime co) g
            (Some lo) (Some hi) []).
  destruct (Scraper.search_listings E loc (Cal.strftime ci) (Cal.strftime co) g
              (Some lo) (Some hi) []) as [|l ls] eqn:Hls; [left; reflexivity|].
  intros Hend. right.
  match goal with
  | H : context [show_listings ?e ?lst ?v ?o] |- _ =>
      exists o; destruct (show_listings e lst v o) as [[ok u1] out2] eqn:Hshow
  end.
  destruct ok; [|discriminate Hend].
  destruct (final_message _ _ _ _ _ _ _); [|discriminate Hend].
  exists out2. reflexivity.
Qed.


(** After the first touch the user is found, and it is the user touched. *)
Lemma first_touch_found t d :
  Database.find_user t (snd (first_touch t d)) = Some (fst (first_touch t d)).
Proof.
  unfold first_touch. destruct (Database.find_user t d) as [user|] eqn:Hf; [exact Hf|].
  unfold Database.add_user, Database.find_user in *. cbn [fst snd Database.users].
  rewrite find_app, Hf. simpl. rewrite String.eqb_refl. reflexivity.
Qed.

Lemma first_touch_feedback t d : Database.feedback (snd (first_touch t d)) = Database.feedback d.
Proof. unfold first_touch. destruct (Database.find_user t d); reflexivity. Qed.


(** X7. When [price_range] has ended a search, the like and the dislike
    button of every listing found work: the listing id of the button has
    an entry in the user data, a listing with that id, so that the event
    is never answered by the not-found message, and any row it writes is
    a row for that id with the verdict of the button. *)
Theorem shown_listing_accepts_feedback (E : env) (text : string) (lo hi : Z)
    (u : user_data) (loc : string) (ci co : Cal.date) (g : Z) (l : Scraper.listing)
    (action : string) (uid : Z) (d : Database.db)
    (model : list (Database.feedback_data * bool)) :
  parse_price_range text = Some (lo, hi) ->
  ud_location u = Some loc -> ud_checkin_date u = Some ci ->
  ud_checkout_date u = Some co -> ud_guests u = Some g ->
  r_ret (price_range E text u) = Return (Some END) ->
  In l (Scraper.search_listings E loc (Cal.strftime ci) (Cal.strftime co) g
          (Some lo) (Some hi) []) ->
  action = "like" \/ action = "dislike" ->
  let u' := r_ud (price_range E text u) in
  let fr := handle_listing_feedback uid ("feedback_" ++ listing_id E l ++ "_" ++ action)
              u' d model in
  (exists l', ud_listings u' !! ("listing_" ++ listing_id E l) = Some l'
              /\ listing_id E l' = listing_id E l)
  /\ f_out fr <> [Answer None false; EditMarkup None; Reply listing_missing_text None]
  /\ (forall row, In row (Database.feedback (f_db fr)) ->
        In row (Database.feedback d)
        \/ (Database.fb_listing_id row = listing_id E l
            /\ Database.fb_liked row = String.eqb action "like")).
Proof.
  intros Hparse Hloc Hci Hco Hg Hend Hin Hact u' fr.
  destruct (price_range_end E text lo hi u loc ci co g Hparse Hloc Hci Hco Hg Hend)
    as [Hnil | (out1 & out2 & Hrun)]; [rewrite Hnil in Hin; destruct Hin|].
  destruct (show_listings_lookup _ _ _ _ _ _ _ Hrun Hin) as (l' & _ & Hid & Hlook).
  fold u' in Hlook. split; [eauto|].
  assert (Hsplit : Py.split "_" ("feedback_" ++ listing_id E l ++ "_" ++ action)
                   = ["feedback"; listing_id E l; action]).
  { apply split_feedback_token; [apply str_of_int_no_underscore|].
    destruct Hact as [-> | ->]; reflexivity. }
  subst fr. unfold handle_listing_feedback. rewrite Hsplit, Hlook.
  destruct (Database.find_user (Py.str_of_int uid) d) as [user|];
    unfold Database.add_user; cbv zeta beta iota;
    (destruct (make_feedback_data (listing_id E l) l') as [fd|] eqn:Hfd;
       [|split; [discriminate|intros row Hrow; left; exact Hrow]]);
    (match goal with
     | |- context [Database.from_listing ?a ?b ?c] =>
         destruct (Database.from_listing a b c) as [fb|] eqn:Hfb
     end; [|split; [discriminate|intros row Hrow; left; exact Hrow]]);
    (split; [discriminate|]);
    intros row Hrow; cbn [f_db Database.add_feedback Database.feedback] in Hrow;
    apply in_app_or in Hrow as [Hrow|[<-|[]]]; [left; exact Hrow| |left; exact Hrow|];
    right; unfold Database.from_listing in Hfb;
    destruct (Py.int_of_float (Database.fd_bathrooms fd)); try discriminate;
    injection Hfb as <-; cbn [Database.fb_listing_id Database.fb_liked];
    unfold make_feedback_data in Hfd;
    destruct (Py.float_of_int (Scraper.price l')), (Py.int_of_float (Scraper.bedrooms l'));
    try discriminate; injection Hfd as <-; split; reflexivity.
Qed.

(** X8. The listings shown are stored under an id that is a hash: when two
    of them have the same id, the later one takes the place of the earlier
    one, and feedback on either is feedback on the later one. *)
Theorem same_id_last_listing_wins (E : env) (pre post : list Scraper.listing)
    (l : Scraper.listing) (u u' : user_data) (out out' : list action) :
  show_listings E (pre ++ l :: post) u out = (true, u', out') ->
  (forall x, In x post -> listing_id E x <> listing_id E l) ->
  forall l1, In l1 (pre ++ [l]) -> listing_id E l1 = listing_id E l ->
             ud_listings u' !! ("listing_" ++ listing_id E l1) = Some l.
Proof.
  intros Hrun Hpost l1 _ Hsame. rewrite Hsame.
  rewrite (show_listings_stored _ _ _ _ _ _ Hrun), fold_insert_lookup.
  rewrite rev_app_distr. cbn [rev]. rewrite <- app_assoc, find_app.
  destruct (List.find _ (rev post)) as [x|] eqn:Hf.
  - apply find_some in Hf as [Hx Heq]. apply String.eqb_eq in Heq.
    apply append_inv_head in Heq. apply in_rev in Hx.
    exfalso. exact (Hpost x Hx Heq).
  - cbn [app List.find]. rewrite String.eqb_refl. reflexivity.
Qed.


(** X10. A feedback event on a stored listing whose numbers do not convert
    (a price too large for a float, a number of bedrooms or bathrooms that
    is infinite or not a number) is answered by the error message: no row
    is written and the model is not updated; yet the user has been created
    when there was none. *)
Theorem feedback_conversion_error (uid : Z) (data x id action : string)
    (rest : list string) (l : Scraper.listing) (u : user_data) (d : Database.db)
    (model : list (Database.feedback_data * bool)) :
  Py.split "_" data = x :: id :: action :: rest ->
  ud_listings u !! ("listing_" ++ id) = Some l ->
  Py.float_of_int (Scraper.price l) = None
  \/ Py.int_of_float (Scraper.bedrooms l) = None
  \/ Py.int_of_float (Scraper.bathrooms l) = None ->
  let r := handle_listing_feedback uid data u d model in
  Database.feedback (f_db r) = Database.feedback d
  /\ f_model r = model
  /\ f_out r = [Answer None false; Reply feedback_error_text None]
  /\ exists user, Database.find_user (Py.str_of_int uid) (f_db r) = Some user.
Proof.
  intros Hsplit Hl Hbad r.
  assert (Hr : r = mkfeedback_result (snd (first_touch (Py.str_of_int uid) d)) model
                     [Answer None false; Reply feedback_error_text None]).
  { subst r. unfold handle_listing_feedback, first_touch. rewrite Hsplit, Hl.
    unfold make_feedback_data, Database.from_listing.
    destruct (Database.find_user (Py.str_of_int uid) d);
      unfold Database.add_user; cbv zeta beta iota;
      destruct Hbad as [-> | [H | H]]; try reflexivity;
      try (rewrite H; destruct (Py.float_of_int (Scraper.price l)); reflexivity);
      destruct (Py.float_of_int (Scraper.price l));
      destruct (Py.int_of_float (Scraper.bedrooms l));
      cbn [Database.fd_bathrooms]; try rewrite H; reflexivity. }
  rewrite Hr. cbn [f_db f_model f_out].
  split; [apply first_touch_feedback|].
  split; [reflexivity|]. split; [reflexivity|].
  eexists. apply first_touch_found.
Qed.

End FeedbackProperties.

(* ===================================================================== *)
(** ** Further properties of the commands                                  *)
(* ===================================================================== *)

Section CommandProperties.

Import Bot.

Lemma start_command_db uid name d :
  fst (start_command uid name d) = snd (first_touch (Py.str_of_int uid) d).
Proof.
  unfold start_command, first_touch.
  destruct (Database.find_user (Py.str_of_int uid) d); reflexivity.
Qed.

Lemma first_touch_again t d : snd (first_touch t (snd (first_touch t d))) = snd (first_touch t d).
Proof. unfold first_touch at 1. rewrite first_touch_found. reflexivity. Qed.




(** X11. [/start] makes sure that the user has a row: after it the user is
    found; no feedback row is touched; a user that is there is left as it
    is, so that a second [/start] changes nothing. *)
Theorem start_command_first_touch (uid : Z) (name name' : string) (d : Database.db) :
  let d' := fst (start_command uid name d) in
  (exists usr, Database.find_user (Py.str_of_int uid) d' = Some usr
               /\ Database.telegram_id usr = Py.str_of_int uid)
  /\ Database.feedback d' = Database.feedback d
  /\ (forall usr, Database.find_user (Py.str_of_int uid) d = Some usr -> d' = d)
  /\ fst (start_command uid name' d') = d'.
Proof.
  cbv zeta. rewrite !start_command_db.
  split; [|split; [apply first_touch_feedback|split]].
  - eexists. split; [apply first_touch_found|].
    pose proof (first_touch_found (Py.str_of_int uid) d) as Hf.
    unfold Database.find_user in Hf. apply find_some in Hf as [_ Hf].
    apply String.eqb_eq in Hf. exact Hf.
  - intros usr Hf. unfold first_touch. rewrite Hf. reflexivity.
  - apply first_touch_again.
Qed.




End CommandProperties.

(* ===================================================================== *)
(** ** Further properties of the guests and amenities steps                *)
(* ===================================================================== *)

Section AmenityProperties.

Import Bot.

Lemma rows_of_two_spec (l : list button) : forall row,
  (length row <= 2)%nat ->
  concat (rows_of_two l row) = (row ++ l)%list
  /\ Forall (fun r => (1 <= length r <= 2)%nat) (rows_of_two l row)
  /\ (length row + length l <= 2 * length (rows_of_two l row)
                           <= length row + length l + 1)%nat.
Proof.
  induction l as [|b l IH]; intros row Hrow.
  - cbn [rows_of_two]. destruct row as [|x [|y [|z row]]]; simpl in *; try lia;
      repeat split; repeat constructor; simpl; lia.
  - cbn [rows_of_two].
    destruct (Nat.eqb_spec (length row) 2) as [H2|H2].
    + destruct (IH [b]) as (Hc & Hf & Hl); [simpl; lia|].
      cbn [concat]. rewrite Hc. split; [reflexivity|].
      split; [constructor; [lia|exact Hf]|].
      cbn [length] in *. lia.
    + destruct (IH (row ++ [b])%list) as (Hc & Hf & Hl);
        [rewrite length_app; simpl; lia|].
      rewrite Hc, <- app_assoc. split; [reflexivity|]. split; [exact Hf|].
      rewrite length_app in Hl. cbn [length] in *. lia.
Qed.

(** X14. The loop that lays out the amenity buttons keeps every button, in
    order, in rows of two, the last row holding the odd one out: for [n]
    buttons that is [(n + 1) / 2] rows. *)
Theorem rows_of_two_layout (l : list button) :
  concat (rows_of_two l []) = l
  /\ Forall (fun r => (1 <= length r <= 2)%nat) (rows_of_two l [])
  /\ length (rows_of_two l []) = ((length l + 1) / 2)%nat.
Proof.
  destruct (rows_of_two_spec l []) as (Hc & Hf & Hl); [simpl; lia|].
  split; [exact Hc|]. split; [exact Hf|].
  cbn [length] in Hl.
  apply Nat.div_unique with (r := (length l + 1 - 2 * length (rows_of_two l []))%nat);
    lia.
Qed.




Lemma labels_none keys :
  labels keys = None <-> exists k, In k keys /\ assoc k amenities_options = None.
Proof.
  induction keys as [|k keys IH]; cbn [labels].
  - split; [discriminate|]. intros (k & [] & _).
  - destruct (assoc k amenities_options) as [lab|] eqn:Hk.
    + destruct (labels keys) as [labs|].
      * split; [discriminate|]. intros (j & [<-|Hj] & Hn); [congruence|].
        assert (Hex : Some labs = None) by (apply IH; eauto). discriminate Hex.
      * split; [|reflexivity]. intros _.
        destruct (proj1 IH eq_refl) as (j & Hj & Hn). exists j. split; [right|]; assumption.
    + split; [|reflexivity]. intros _. exists k. split; [left; reflexivity|exact Hk].
Qed.




(** X17. The summary of a search fails with a key error exactly when one
    of the keys selected is no key of the amenity options. *)
Theorem final_message_key_error (loc : string) (ci co : Cal.date) (g lo hi : Z)
    (sel : selection) :
  final_message loc ci co g lo hi (Some sel) = None
  <-> exists k, In k (selection_list sel) /\ assoc k amenities_options = None.
Proof.
  unfold final_message. destruct (selection_list sel) as [|k keys] eqn:He.
  - split; [discriminate|]. intros (k & [] & _).
  - rewrite <- labels_none. destruct (labels (k :: keys)); split; congruence.
Qed.


End AmenityProperties.

(* ===================================================================== *)
(** ** Further properties of the navigation and of the scraper             *)
(* ===================================================================== *)

Section NavigationRoundTrip.

Import Bot.

Lemma prev_of_next y m :
  1 <= m <= 12 ->
  prev_year (next_year y m) (next_month m) = y /\ prev_month (next_month m) = m.
Proof.
  intros Hm. unfold prev_year, prev_month, next_year, next_month.
  destruct (Z.ltb_spec m 12); split; bool_cases.
Qed.

Lemma can_go_prev_after_next today y m :
  1 <= m <= 12 -> month_before today y m = false ->
  can_go_prev today (next_year y m) (next_month m) = true.
Proof.
  intros Hm Hb. unfold can_go_prev.
  destruct (prev_of_next y m Hm) as [-> ->].
  unfold month_before in Hb. bool_cases.
Qed.

(** X19. Next, then previous, is a round trip: from the calendar of a
    month that is not before the current one, the event of [>>] shows the
    calendar of the month after, which offers [<<] with the event of the
    month left, and that event shows the first calendar again; the user
    data are not touched on the way. *)
Theorem next_then_previous (today : Cal.date) (y m : Z) (u : user_data) (mk : markup) :
  create_calendar today y m None = Some mk ->
  month_before today y m = false ->
  let r1 := handle_calendar today (nav_data (next_year y m) (next_month m)) u in
  let r2 := handle_calendar today (nav_data y m) (r_ud r1) in
  exists mk' row,
    create_calendar today (next_year y m) (next_month m) None = Some mk'
    /\ shown (Some mk) (r_out r1) = Some mk'
    /\ In row mk' /\ In (mkbutton "<<" (nav_data y m)) row
    /\ shown (Some mk') (r_out r2) = Some mk
    /\ r_ud r2 = u.
Proof.
  intros Hmk Hb r1 r2.
  pose proof (create_calendar_month _ _ _ _ _ Hmk) as Hm.
  pose proof (next_month_range m Hm) as Hnm.
  destruct (create_calendar_grid today (next_year y m) (next_month m) None Hnm)
    as (name & cal & _ & Hmk').
  subst r2 r1. rewrite (handle_calendar_nav _ _ _ u _ Hmk'). cbn [r_ud r_out].
  rewrite (handle_calendar_nav _ _ _ u _ Hmk). cbn [r_ud r_out].
  eexists. exists (nav_row today (next_year y m) (next_month m)).
  split; [exact Hmk'|]. split; [reflexivity|]. split; [|split; [|split; reflexivity]].
  - right. right. apply in_or_app. right. left. reflexivity.
  - unfold nav_row. rewrite (can_go_prev_after_next today y m Hm Hb).
    destruct (prev_of_next y m Hm) as [-> ->]. left. reflexivity.
Qed.

Lemma cannot_go_prev_of_today today :
  can_go_prev today (Cal.year today) (Cal.month today) = false.
Proof. unfold can_go_prev, prev_year, prev_month. bool_cases. Qed.

(** X25. [location] keeps the text as the location and shows the calendar
    of the current month; on that calendar the only navigation offered is
    to the month after: there is no way back from the first calendar. *)
Theorem location_first_calendar (today : Cal.date) (msg : string) (u : user_data) :
  1 <= Cal.month today <= 12 ->
  let r := location today msg u in
  r_ret r = Return (Some SELECT_CHECKIN)
  /\ r_ud r = set_location msg u
  /\ exists mk,
       create_calendar today (Cal.year today) (Cal.month today) None = Some mk
       /\ r_out r = [Reply "Please select your check-in date:" (Some mk)]
       /\ forall row b y m,
            In row mk -> In b row -> callback_data b = nav_data y m ->
            y = next_year (Cal.year today) (Cal.month today)
            /\ m = next_month (Cal.month today).
Proof.
  intros Hm r. subst r. unfold location.
  destruct (create_calendar_some today (Cal.year today) (Cal.month today) None Hm)
    as (mk & Hmk).
  rewrite Hmk. cbn [r_ret r_ud r_out]. split; [reflexivity|]. split; [reflexivity|].
  exists mk. split; [reflexivity|]. split; [reflexivity|].
  intros row b y m Hrow Hb Hdata.
  destruct (calendar_buttons _ _ _ _ _ _ _ Hmk Hrow Hb)
    as [Hi|[(d & _ & _ & Hc)|[(Hprev & _)|Hn]]].
  - rewrite Hi in Hdata. discriminate Hdata.
  - rewrite Hc in Hdata. discriminate Hdata.
  - rewrite cannot_go_prev_of_today in Hprev. discriminate Hprev.
  - rewrite Hn in Hdata. apply nav_data_inj in Hdata as [<- <-]. split; reflexivity.
Qed.

End NavigationRoundTrip.

Section ScraperProperties.

Import Scraper.

Lemma insert_by_price_filter x l p :
  List.filter (fun a => (price a =? p)%Z) (insert_by_price x l)
  = if (price x =? p)%Z then x :: List.filter (fun a => (price a =? p)%Z) l
    else List.filter (fun a => (price a =? p)%Z) l.
Proof.
  induction l as [|y r IH]; cbn [insert_by_price].
  - cbn [List.filter]. reflexivity.
  - destruct (Z.leb_spec (price x) (price y)) as [Hle|Hgt].
    + cbn [List.filter]. reflexivity.
    + cbn [List.filter]. rewrite IH.
      destruct (Z.eqb_spec (price x) p) as [Hx|Hx]; [|reflexivity].
      destruct (Z.eqb_spec (price y) p) as [Hy|Hy]; [lia|reflexivity].
Qed.

(** X20. The sort by price is stable: the listings of any one price come
    out in the order in which the results had them. *)
Theorem sort_by_price_stable (ls : list listing) (p : Z) :
  List.filter (fun a => (price a =? p)%Z) (sort_by_price ls)
  = List.filter (fun a => (price a =? p)%Z) ls.
Proof.
  induction ls as [|x ls IH]; [reflexivity|].
  cbn [sort_by_price fold_right]. fold (sort_by_price ls).
  rewrite insert_by_price_filter, IH. cbn [List.filter]. reflexivity.
Qed.



Lemma check_amenities_forallb la req :
  _check_amenities la req
  = forallb (fun required =>
               existsb (fun variation =>
                          existsb (fun amenity =>
                                     (Py.substring variation amenity
                                      || Py.substring amenity variation)%bool)
                                  (map Py.lower la))
                       (variations_of (Py.lower required) amenity_variations))
            req.
Proof. destruct req; reflexivity. Qed.

Lemma existsb_incl {A} (f : A -> bool) l l' :
  incl l l' -> existsb f l = true -> existsb f l' = true.
Proof.
  intros Hincl H. apply existsb_exists in H as (x & Hx & Hf).
  apply existsb_exists. exists x. split; [apply Hincl; exact Hx|exact Hf].
Qed.

(** X22. [_check_amenities] is monotone in the amenities of the listing:
    a listing that passes keeps passing when it has more amenities; and
    the requirements are checked one by one, a list of them passing
    exactly when each part of it does. *)
Theorem check_amenities_monotone (la la' req req' : list string) :
  incl la la' ->
  (_check_amenities la req = true -> _check_amenities la' req = true)
  /\ _check_amenities la (req ++ req')
     = (_check_amenities la req && _check_amenities la req')%bool.
Proof.
  intros Hincl. rewrite !check_amenities_forallb. split.
  - rewrite !forallb_forall. intros H r Hr. specialize (H r Hr).
    apply existsb_exists in H as (v & Hv & Hf). apply existsb_exists. exists v.
    split; [exact Hv|]. revert Hf. apply existsb_incl.
    apply incl_map. exact Hincl.
  - apply forallb_app.
Qed.

Lemma variations_of_nonempty r : variations_of r amenity_variations <> [].
Proof.
  unfold amenity_variations. cbn [variations_of].
  repeat match goal with
         | |- context [String.eqb ?a r] => destruct (String.eqb a r); [discriminate|]
         end.
  discriminate.
Qed.

Lemma substring_empty s : Py.substring "" s = true.
Proof. destruct s; reflexivity. Qed.

(** X23. An amenity with an empty name makes a listing pass every
    requirement, the empty text being part of every variation; a listing
    with no amenity at all fails as soon as one is required. *)
Theorem check_amenities_empty_name (la req : list string) (r : string) :
  In "" la ->
  _check_amenities la req = true /\ _check_amenities [] (r :: req) = false.
Proof.
  intros Hin. rewrite !check_amenities_forallb. split.
  - apply forallb_forall. intros x _.
    destruct (variations_of (Py.lower x) amenity_variations) as [|v vs] eqn:Hv;
      [exfalso; exact (variations_of_nonempty _ Hv)|].
    cbn [existsb]. apply orb_true_iff. left.
    apply existsb_exists. exists "". split.
    + change "" with (Py.lower ""). apply in_map. exact Hin.
    + rewrite substring_empty. apply orb_true_r.
  - cbn [forallb map]. apply andb_false_iff. left.
    induction (variations_of (Py.lower r) amenity_variations) as [|v vs IH];
      [reflexivity|exact IH].
Qed.

Lemma amenity_names_In ids name :
  In name (amenity_names ids)
  <-> exists aid, In aid ids /\ amenity_name aid amenity_id_mapping = Some name.
Proof.
  induction ids as [|aid ids IH]; cbn [amenity_names].
  - split; [intros []|intros (aid & [] & _)].
  - destruct (amenity_name aid amenity_id_mapping) as [n|] eqn:Hn.
    + split.
      * intros [<-|H]; [exists aid; split; [left; reflexivity|exact Hn]|].
        apply IH in H as (a & Ha & Hna). exists a. split; [right; exact Ha|exact Hna].
      * intros (a & [<-|Ha] & Hna); [left; congruence|].
        right. apply IH. eauto.
    + rewrite IH. split.
      * intros (a & Ha & Hna). exists a. split; [right; exact Ha|exact Hna].
      * intros (a & [<-|Ha] & Hna); [congruence|eauto].
Qed.

Lemma amenity_names_length ids : (length (amenity_names ids) <= length ids)%nat.
Proof.
  induction ids as [|aid ids IH]; cbn [amenity_names]; [reflexivity|].
  destruct (amenity_name aid amenity_id_mapping); cbn [length]; lia.
Qed.

(** X24. [_get_amenities_from_ids] gives each name once; a name is given
    exactly when one of the ids is a key of the mapping with that name, so
    that ids that are no key are passed over; there are no more names than
    ids. *)
Theorem get_amenities_from_ids_spec (ids : list Z) :
  NoDup (_get_amenities_from_ids ids)
  /\ (forall name, In name (_get_amenities_from_ids ids)
                   <-> exists aid, In aid ids
                                   /\ amenity_name aid amenity_id_mapping = Some name)
  /\ (length (_get_amenities_from_ids ids) <= length ids)%nat.
Proof.
  unfold _get_amenities_from_ids.
  assert (Hin : forall name,
             In name (elements (list_to_set (amenity_names ids) : gset string))
             <-> In name (amenity_names ids)).
  { intros name. rewrite <- !list_elem_of_In, elem_of_elements, elem_of_list_to_set.
    reflexivity. }
  split; [apply NoDup_elements|]. split.
  - intros name. rewrite Hin. apply amenity_names_In.
  - etransitivity; [|apply amenity_names_length].
    apply List.NoDup_incl_length; [apply NoDup_ListNoDup, NoDup_elements|].
    intros name. apply Hin.
Qed.

End ScraperProperties.

(* ===================================================================== *)
(** ** The further properties at concrete inputs                           *)
(* ===================================================================== *)

(** X1 at 10 June 2024, chosen with no check-in date stored. *)
Lemma checkin_selection_witness :
  Bot.r_ret (Bot.handle_calendar Ex.today "cal_2024-06-10" Bot.empty_user_data)
  = Bot.Return (Some Bot.SELECT_CHECKOUT)
  /\ Bot.ud_checkin_date
       (Bot.r_ud (Bot.handle_calendar Ex.today "cal_2024-06-10" Bot.empty_user_data))
     = Some (Cal.mkdate 2024 6 10).
Proof.
  destruct (checkin_selection Ex.today "cal_2024-06-10" "2024-06-10" []
              (Cal.mkdate 2024 6 10) (Cal.mkdate 2024 6 11) Bot.empty_user_data
              eq_refl eq_refl eq_refl eq_refl) as (mk & _ & Hret & Hud & _).
  split; [exact Hret|]. rewrite Hud. reflexivity.
Defined.

(** X2 at a date event in the check-out step. *)
Lemma handle_calendar_keeps_checkin_witness :
  Bot.ud_checkin_date (Bot.r_ud (Bot.handle_calendar Ex.today "cal_2024-06-12" Ex.checked_in))
  = Some (Cal.mkdate 2024 6 10).
Proof.
  destruct (handle_calendar_keeps_checkin Ex.today "cal_2024-06-12" Ex.checked_in
              (Cal.mkdate 2024 6 10) eq_refl) as (H & _).
  exact H.
Defined.


(** X5 at a second search, for Rome, after the search for Paris. *)
Lemma stale_checkin_witness :
  Bot.ud_checkin_date
    (Bot.r_ud (Bot.handle_calendar Ex.today "cal_2024-07-01"
                 (Bot.data (Bot.start Ex.today "Rome"
                              (Bot.r_ud (Bot.price_range (example_env Ex.http_500)
                                           "100-300" Ex.paris))))))
  = Some (Cal.mkdate 2024 6 10).
Proof.
  destruct (stale_checkin_in_next_search (example_env Ex.http_500) Ex.today
              "100-300" "Rome" "cal_2024-07-01" "2024-07-01" []
              (Cal.mkdate 2024 7 1) (Cal.mkdate 2024 6 10) Ex.paris
              eq_refl eq_refl eq_refl) as (_ & H & _).
  exact H.
Defined.

(** X6 at user data without a check-out date and without guests. *)
Lemma price_range_missing_criteria_witness :
  Bot.r_ret (Bot.price_range (example_env Ex.http_500) "100-300" Ex.checked_in)
  = Bot.Return (Some Bot.PRICE_RANGE).
Proof.
  rewrite (price_range_missing_criteria (example_env Ex.http_500) "100-300" (100, 300)
             Ex.checked_in eq_refl (or_intror (or_intror (or_introl eq_refl)))).
  reflexivity.
Defined.

(** X7 at the cheapest of seven results, liked. *)
Lemma shown_listing_accepts_feedback_witness :
  Bot.f_out
    (Bot.handle_listing_feedback 7
       ("feedback_" ++ Bot.listing_id (example_env (Ex.http_results Ex.seven_items))
                         Ex.cheapest ++ "_" ++ "like")
       (Bot.r_ud (Bot.price_range (example_env (Ex.http_results Ex.seven_items))
                    "50-500" Ex.paris))
       Ex.no_rows [])
  <> [Bot.Answer None false; Bot.EditMarkup None; Bot.Reply Bot.listing_missing_text None].
Proof.
  destruct (shown_listing_accepts_feedback (example_env (Ex.http_results Ex.seven_items))
              "50-500" 50 500 Ex.paris "Paris" (Cal.mkdate 2024 6 10) (Cal.mkdate 2024 6 15)
              2 Ex.cheapest "like" 7 Ex.no_rows [])
    as (_ & H & _); try (vm_compute; reflexivity).
  - left. vm_compute. reflexivity.
  - left. reflexivity.
  - exact H.
Defined.

(** X8 at two listings of one id, the second at another price. *)
Lemma same_id_last_listing_wins_witness :
  Bot.ud_listings
    (snd (fst (Bot.show_listings (example_env Ex.http_500) [Ex.loft; Ex.loft_later]
                 Ex.paris [])))
    !! ("listing_" ++ Bot.listing_id (example_env Ex.http_500) Ex.loft)
  = Some Ex.loft_later.
Proof.
  apply (same_id_last_listing_wins (example_env Ex.http_500) [Ex.loft] [] Ex.loft_later
           Ex.paris
           (snd (fst (Bot.show_listings (example_env Ex.http_500) [Ex.loft; Ex.loft_later]
                        Ex.paris [])))
           [] (snd (Bot.show_listings (example_env Ex.http_500) [Ex.loft; Ex.loft_later]
                      Ex.paris []))).
  - vm_compute. reflexivity.
  - intros x [].
  - left. reflexivity.
  - reflexivity.
Defined.


(** X10 at a listing whose number of bedrooms is infinite. *)
Lemma feedback_conversion_error_witness :
  Bot.f_out (Bot.handle_listing_feedback 7 "feedback_43_like" Ex.shown_endless Ex.no_rows [])
  = [Bot.Answer None false; Bot.Reply Bot.feedback_error_text None].
Proof.
  destruct (feedback_conversion_error 7 "feedback_43_like" "feedback" "43" "like" []
              Ex.endless Ex.shown_endless Ex.no_rows [])
    as (_ & _ & H & _).
  - reflexivity.
  - vm_compute. reflexivity.
  - right. left. reflexivity.
  - exact H.
Defined.





(** X19 at January 2024 seen on the 15th. *)
Lemma next_then_previous_witness :
  exists mk' row,
    Bot.create_calendar Ex.today 2024 2 None = Some mk'
    /\ In row mk' /\ In (Bot.mkbutton "<<" "nav_2024_1") row.
Proof.
  destruct (next_then_previous Ex.today 2024 1 Ex.checked_in
              (match Bot.create_calendar Ex.today 2024 1 None with
               | Some mk => mk
               | None => []
               end))
    as (mk' & row & Hmk' & _ & Hrow & Hb & _).
  - vm_compute. reflexivity.
  - reflexivity.
  - exists mk', row. exact (conj Hmk' (conj Hrow Hb)).
Defined.

(** X22 at a listing that gains a pool. *)
Lemma check_amenities_monotone_witness :
  Scraper._check_amenities ["Wifi"; "Pool"] ["wifi"] = true.
Proof.
  destruct (check_amenities_monotone ["Wifi"] ["Wifi"; "Pool"] ["wifi"] []) as [H _].
  - intros x [<-|[]]. left. reflexivity.
  - apply H. vm_compute. reflexivity.
Defined.

(** X23 at a listing whose only amenity has no name. *)
Lemma check_amenities_empty_name_witness :
  Scraper._check_amenities [""] ["pool"; "gym"] = true
  /\ Scraper._check_amenities [] ["wifi"; "pool"; "gym"] = false.
Proof.
  apply (check_amenities_empty_name [""] ["pool"; "gym"] "wifi").
  left. reflexivity.
Defined.

(** X25 at 15 January 2024. *)
Lemma location_first_calendar_witness :
  Bot.r_ret (Bot.location Ex.today "Paris" Bot.empty_user_data)
  = Bot.Return (Some Bot.SELECT_CHECKIN).
Proof.
  destruct (location_first_calendar Ex.today "Paris" Bot.empty_user_data) as (H & _).
  - simpl. lia.
  - exact H.
Defined.
